(** * I-Bird attitude regulation module: a shallow embedding of regulator.c

    The module keeps its state in file-level statics (the three PID
    controllers, the three rate-filter handles, the ready flag, the mode, the
    remote-control outputs, the reference quaternion and the telemetry pool)
    and talks to the rest of the firmware through headers that are not part of
    this file: quat.h, bams.h, controller.h, dfilter.h, pbuff.h, attitude.h,
    sys_clock.h, motor_ctrl.h and sync_servo.h.

    The embedding threads the statics through a small state monad that also
    logs the calls made to the actuator drivers and to the PID service, and
    that can stop on a null-pointer dereference.  The numeric collaborators
    are interfaces (type classes); a reference platform on binary64 floats at
    the end of the file runs the model on concrete inputs. *)

From Stdlib Require Import ZArith Floats Uint63.
From stdpp Require Import base list vector.

Set Warnings "-inexact-float".
Local Open Scope Z_scope.

(** ** Collaborator interfaces *)

(** The C type [float] with the operations regulator.c uses on it:
    literals such as [1.0] and [3.0] ([Flit]), [*], [/] and [==]. *)
Class Scalar (F : Type) := {
  Flit : Z → F;
  Fmul : F → F → F;
  Fdiv : F → F → F;
  Feqb : F → F → bool;
}.

(** quat.h: [Quaternion] has the fields w, x, y, z. *)
Record Quaternion (F : Type) : Type :=
  Quat { qw : F; qx : F; qy : F; qz : F }.
Arguments Quat {F} _ _ _ _.
Arguments qw {F} _.
Arguments qx {F} _.
Arguments qy {F} _.
Arguments qz {F} _.

(** quat.h: [quatConj(q, out)] and [quatMult(a, b, out)] write their result
    through the last pointer; here they return it. *)
Class QuatLib (F : Type) := {
  quatConj : Quaternion F → Quaternion F;
  quatMult : Quaternion F → Quaternion F → Quaternion F;
}.

(** bams.h: binary angles.  The typedef of [bams16_t] is not in
    regulator.c; a binary angle is an integer here, and [bams16_of_int] is
    the conversion of an [int] expression to [bams16_t] at a call. *)
Class BamsLib (F : Type) := {
  bams16_of_int : Z → Z;
  bams16Acos : F → Z;
  bams16Sin : Z → F;
  bams16ToFloatRad : Z → F;
}.

(** controller.h: the PID service.  Every function takes the controller by
    pointer; here it returns the updated controller.  [ctrlRunPid] also
    receives the rate-filter handle: [ctrlRunPid_filter] is the state in
    which that call leaves the filter behind the handle. *)
Class Controller (F Pid Filter : Type) := {
  ctrlInitPidParams : Pid → F → Pid;
  ctrlSetPidParams : Pid → F → F → F → F → Pid;
  ctrlSetPidOffset : Pid → F → Pid;
  ctrlSetRefWeigts : Pid → F → F → Pid;
  ctrlSetSaturation : Pid → F → F → Pid;
  ctrlSetRef : Pid → F → Pid;
  ctrlStart : Pid → Pid;
  ctrlStop : Pid → Pid;
  ctrlIsRunning : Pid → bool;
  ctrlRunPid : Pid → F → option Filter → F * Pid;
  ctrlRunPid_filter : Pid → F → Filter → Filter;
}.

(** What the properties on the running flag assume of the PID service,
    whose code is not in regulator.c: a started controller reports running,
    a stopped one does not. *)
Class ControllerContract {F Pid Filter : Type} (C : Controller F Pid Filter)
  : Prop := {
  ctrlIsRunning_ctrlStart : ∀ p : Pid, ctrlIsRunning (ctrlStart p) = true;
  ctrlIsRunning_ctrlStop : ∀ p : Pid, ctrlIsRunning (ctrlStop p) = false;
}.

(** dfilter.h: [dfilterCreate] returns a handle, which regulator.c compares
    with NULL; [dfilterApply] filters one sample and advances the filter. *)
Class DFilterLib (F Filter : Type) := {
  dfilterCreate : Z → Z → list F → list F → option Filter;
  dfilterApply : Filter → F → F * Filter;
}.

(** ** Data *)

Inductive Axis : Type := Yaw | Pitch | Roll.

Definition Axis_eqb (a b : Axis) : bool :=
  match a, b with
  | Yaw, Yaw | Pitch, Pitch | Roll, Roll => true
  | _, _ => false
  end.

(** The enumerators of [RegulatorMode] (regulator.h), in declaration order. *)
Definition REG_OFF : Z := 0.
Definition REG_TRACK : Z := 1.
Definition REG_REMOTE_CONTROL : Z := 2.

Definition REG_BUFF_SIZE : nat := 5.

(** A pointer into [reg_state] is the index of its slot. *)
Definition slot : Type := fin REG_BUFF_SIZE.

(** Modelled from the spec: pbuff.c is not under src/.  The telemetry pool
    of section 4.4: every slot is idle, active or checked out; the idle and
    the active slots are queued, oldest first, and a slot in neither queue is
    checked out. *)
Record PoolBuffStruct : Type :=
  PoolBuff { idle_q : list slot; active_q : list slot }.

(** Modelled from the spec: pbuff.c is not under src/.  [pbuffInit] makes
    every item idle. *)
Definition pbuffInit (items : list slot) : PoolBuffStruct :=
  PoolBuff items [].

(** Modelled from the spec: pbuff.c is not under src/.  An idle slot, if
    there is one; the slot is then checked out. *)
Definition pbuffGetIdle (b : PoolBuffStruct) : option slot * PoolBuffStruct :=
  match idle_q b with
  | [] => (None, b)
  | i :: rest => (Some i, PoolBuff rest (active_q b))
  end.

(** Modelled from the spec: pbuff.c is not under src/.  [take]: the oldest
    active slot, which is then checked out, or NULL with the pool as it was. *)
Definition pbuffGetOldestActive (b : PoolBuffStruct)
  : option slot * PoolBuffStruct :=
  match active_q b with
  | [] => (None, b)
  | i :: rest => (Some i, PoolBuff (idle_q b) rest)
  end.

(** Modelled from the spec: pbuff.c is not under src/.  The producer's slot
    of [publish]: an idle slot if any, else the oldest active one, else
    NULL. *)
Definition pbuffForceGetIdleOldest (b : PoolBuffStruct)
  : option slot * PoolBuffStruct :=
  match pbuffGetIdle b with
  | (Some i, b') => (Some i, b')
  | (None, _) => pbuffGetOldestActive b
  end.

(** Modelled from the spec: pbuff.c is not under src/.  The written slot
    becomes the newest active one. *)
Definition pbuffAddActive (b : PoolBuffStruct) (i : slot) : PoolBuffStruct :=
  PoolBuff (idle_q b) (active_q b ++ [i]).

(** Modelled from the spec: pbuff.c is not under src/.  [returnSlot]: the
    slot becomes idle. *)
Definition pbuffReturn (b : PoolBuffStruct) (i : slot) : PoolBuffStruct :=
  PoolBuff (idle_q b ++ [i]) (active_q b).

(** [RegulatorOutput], declared in regulator.c. *)
Record RegulatorOutput (F : Type) : Type :=
  Output { thrust : F; steer : F; elevator : F }.
Arguments Output {F} _ _ _.
Arguments thrust {F} _.
Arguments steer {F} _.
Arguments elevator {F} _.

(** [RegulatorStateStruct] (regulator.h), by the fields regulator.c writes:
    time, ref, pose, error and u[3]. *)
Record RegulatorStateStruct (F : Type) : Type :=
  RegState {
    st_time : Z;
    st_ref : Quaternion F;
    st_pose : Quaternion F;
    st_error : Quaternion F;
    st_u : vec F 3;
  }.
Arguments RegState {F} _ _ _ _ _.
Arguments st_time {F} _.
Arguments st_ref {F} _.
Arguments st_pose {F} _.
Arguments st_error {F} _.
Arguments st_u {F} _.

(** [RateFilterParamsStruct] and [PidParamsStruct] (regulator.h), by the
    fields regulator.c reads. *)
Record RateFilterParamsStruct (F : Type) : Type :=
  RateFilterParams {
    fp_order : Z;
    fp_type : Z;
    fp_xcoeffs : list F;
    fp_ycoeffs : list F;
  }.
Arguments RateFilterParams {F} _ _ _ _.
Arguments fp_order {F} _.
Arguments fp_type {F} _.
Arguments fp_xcoeffs {F} _.
Arguments fp_ycoeffs {F} _.

Record PidParamsStruct (F : Type) : Type :=
  PidParams {
    pp_ref : F; pp_kp : F; pp_ki : F; pp_kd : F;
    pp_offset : F; pp_beta : F; pp_gamma : F;
  }.
Arguments PidParams {F} _ _ _ _ _ _ _.
Arguments pp_ref {F} _.
Arguments pp_kp {F} _.
Arguments pp_ki {F} _.
Arguments pp_kd {F} _.
Arguments pp_offset {F} _.
Arguments pp_beta {F} _.
Arguments pp_gamma {F} _.

(** Lines 175-177, the body of [rgltrSetYawRateFilter], are not a C
    statement: the parenthesis that [dfilterCreate(] opens is closed only
    inside the [//] comment of line 176, so the text runs on into the
    [dfilterInit(...)] call of line 177.  Every reading evaluates
    [params->order] first; what the text then leaves in [yawRateFilter] (the
    result of a repaired call, or the handle it held before) is not
    determined by the source.  It is a parameter of the embedding: the
    handle left, for the parameters read and the handle held before. *)
Class YawFilterStatement (F Filter : Type) := {
  yaw_filter_left : RateFilterParamsStruct F → option Filter → option Filter;
}.

(** A call that leaves the module: to the actuator drivers (sync_servo.h,
    motor_ctrl.h) or to the PID service's start, stop and run. *)
Inductive Call (F Filter : Type) : Type :=
  | ServoSetup
  | McSetup
  | ServoStart
  | ServoStop
  | McSteer (v : F)
  | McThrust (v : F)
  | ServoSet (v : F)
  | CtrlStart (ax : Axis)
  | CtrlStop (ax : Axis)
  | CtrlRunPid (ax : Axis) (err : F) (filt : option Filter).
Arguments ServoSetup {F Filter}.
Arguments McSetup {F Filter}.
Arguments ServoStart {F Filter}.
Arguments ServoStop {F Filter}.
Arguments McSteer {F Filter} _.
Arguments McThrust {F Filter} _.
Arguments ServoSet {F Filter} _.
Arguments CtrlStart {F Filter} _.
Arguments CtrlStop {F Filter} _.
Arguments CtrlRunPid {F Filter} _ _ _.

(** The static variables of regulator.c.  The three rate filters are
    declared with the struct type, yet they are assigned what [dfilterCreate]
    returns, compared with NULL and passed on as handles: they are nullable
    handles here.  [is_ready] is an [unsigned char] used as a flag. *)
Record Regulator (F Pid Filter : Type) : Type :=
  Statics {
    yawPid : Pid;
    pitchPid : Pid;
    rollPid : Pid;
    yawRateFilter : option Filter;
    pitchRateFilter : option Filter;
    rollRateFilter : option Filter;
    is_ready : Z;
    reg_mode : Z;
    rc_outputs : RegulatorOutput F;
    reference : Quaternion F;
    reg_state : vec (RegulatorStateStruct F) REG_BUFF_SIZE;
    reg_state_buff : PoolBuffStruct;
  }.
Arguments Statics {F Pid Filter} _ _ _ _ _ _ _ _ _ _ _ _.
Arguments yawPid {F Pid Filter} _.
Arguments pitchPid {F Pid Filter} _.
Arguments rollPid {F Pid Filter} _.
Arguments yawRateFilter {F Pid Filter} _.
Arguments pitchRateFilter {F Pid Filter} _.
Arguments rollRateFilter {F Pid Filter} _.
Arguments is_ready {F Pid Filter} _.
Arguments reg_mode {F Pid Filter} _.
Arguments rc_outputs {F Pid Filter} _.
Arguments reference {F Pid Filter} _.
Arguments reg_state {F Pid Filter} _.
Arguments reg_state_buff {F Pid Filter} _.

(** What one control cycle reads from outside the module: the pose
    ([attGetQuat]), the clock ([sclockGetLocalTicks]) and the indeterminate
    content of the automatic variable [a], which rgltrRunController declares
    without an initializer. *)
Record CycleEnv (F : Type) : Type :=
  Env { att_quat : Quaternion F; local_ticks : Z; auto_a : F }.
Arguments Env {F} _ _ _.
Arguments att_quat {F} _.
Arguments local_ticks {F} _.
Arguments auto_a {F} _.

(** The result of running an operation: it finishes, or it dereferences a
    null pointer, after which C promises nothing. *)
Inductive outcome (A : Type) : Type :=
  | Done (a : A)
  | NullDeref.
Arguments Done {A} _.
Arguments NullDeref {A}.

(** ** The module *)

Section Regulator.
Context {F Pid Filter : Type}.
Context {SC : Scalar F} {QL : QuatLib F} {BL : BamsLib F}.
Context {CT : Controller F Pid Filter} {DF : DFilterLib F Filter}.
Context {YS : YawFilterStatement F Filter}.

Local Abbreviation State := (Regulator F Pid Filter).
Local Abbreviation Calls := (list (Call F Filter)).

(** *** Assignments to the statics *)

Definition pid_of (ax : Axis) (s : State) : Pid :=
  match ax with
  | Yaw => yawPid s
  | Pitch => pitchPid s
  | Roll => rollPid s
  end.

Definition set_pid (ax : Axis) (p : Pid) (s : State) : State :=
  Statics
    (match ax with Yaw => p | _ => yawPid s end)
    (match ax with Pitch => p | _ => pitchPid s end)
    (match ax with Roll => p | _ => rollPid s end)
    (yawRateFilter s) (pitchRateFilter s) (rollRateFilter s)
    (is_ready s) (reg_mode s) (rc_outputs s) (reference s)
    (reg_state s) (reg_state_buff s).

Definition filter_of (ax : Axis) (s : State) : option Filter :=
  match ax with
  | Yaw => yawRateFilter s
  | Pitch => pitchRateFilter s
  | Roll => rollRateFilter s
  end.

Definition set_filter (ax : Axis) (f : option Filter) (s : State) : State :=
  Statics (yawPid s) (pitchPid s) (rollPid s)
    (match ax with Yaw => f | _ => yawRateFilter s end)
    (match ax with Pitch => f | _ => pitchRateFilter s end)
    (match ax with Roll => f | _ => rollRateFilter s end)
    (is_ready s) (reg_mode s) (rc_outputs s) (reference s)
    (reg_state s) (reg_state_buff s).

Definition set_is_ready (v : Z) (s : State) : State :=
  Statics (yawPid s) (pitchPid s) (rollPid s)
    (yawRateFilter s) (pitchRateFilter s) (rollRateFilter s)
    v (reg_mode s) (rc_outputs s) (reference s)
    (reg_state s) (reg_state_buff s).

Definition set_reg_mode (v : Z) (s : State) : State :=
  Statics (yawPid s) (pitchPid s) (rollPid s)
    (yawRateFilter s) (pitchRateFilter s) (rollRateFilter s)
    (is_ready s) v (rc_outputs s) (reference s)
    (reg_state s) (reg_state_buff s).

Definition set_rc_outputs (v : RegulatorOutput F) (s : State) : State :=
  Statics (yawPid s) (pitchPid s) (rollPid s)
    (yawRateFilter s) (pitchRateFilter s) (rollRateFilter s)
    (is_ready s) (reg_mode s) v (reference s)
    (reg_state s) (reg_state_buff s).

Definition set_reference (v : Quaternion F) (s : State) : State :=
  Statics (yawPid s) (pitchPid s) (rollPid s)
    (yawRateFilter s) (pitchRateFilter s) (rollRateFilter s)
    (is_ready s) (reg_mode s) (rc_outputs s) v
    (reg_state s) (reg_state_buff s).

Definition set_reg_state
    (v : vec (RegulatorStateStruct F) REG_BUFF_SIZE) (s : State) : State :=
  Statics (yawPid s) (pitchPid s) (rollPid s)
    (yawRateFilter s) (pitchRateFilter s) (rollRateFilter s)
    (is_ready s) (reg_mode s) (rc_outputs s) (reference s)
    v (reg_state_buff s).

Definition set_reg_state_buff (v : PoolBuffStruct) (s : State) : State :=
  Statics (yawPid s) (pitchPid s) (rollPid s)
    (yawRateFilter s) (pitchRateFilter s) (rollRateFilter s)
    (is_ready s) (reg_mode s) (rc_outputs s) (reference s)
    (reg_state s) v.

(** *** The monad: statics, call log, null dereference *)

Definition M (A : Type) : Type := State → outcome (A * State * Calls).

#[export] Instance M_ret : MRet M := λ A a s, Done (a, s, []).

#[export] Instance M_bind : MBind M := λ A B k m s,
  match m s with
  | Done (a, s1, l1) =>
      match k a s1 with
      | Done (b, s2, l2) => Done (b, s2, l1 ++ l2)
      | NullDeref => NullDeref
      end
  | NullDeref => NullDeref
  end.

Definition gets {A : Type} (f : State → A) : M A := λ s, Done (f s, s, []).
Definition modify (f : State → State) : M unit := λ s, Done (tt, f s, []).
Definition call (c : Call F Filter) : M unit := λ s, Done (tt, s, [c]).

(** [p->field] for a pointer argument [p]. *)
Definition deref {A : Type} (p : option A) : M A :=
  match p with
  | Some a => mret a
  | None => λ _, NullDeref
  end.

(** *** Collaborator calls on the statics *)

Definition servoSetup : M unit := call ServoSetup.
Definition mcSetup : M unit := call McSetup.
Definition servoStart : M unit := call ServoStart.
Definition servoStop : M unit := call ServoStop.
Definition mcSteer (v : F) : M unit := call (McSteer v).
Definition mcThrust (v : F) : M unit := call (McThrust v).
Definition servoSet (v : F) : M unit := call (ServoSet v).

(** A PID function applied to [&yawPid], [&pitchPid] or [&rollPid]. *)
Definition on_pid (ax : Axis) (f : Pid → Pid) : M unit :=
  modify (λ s, set_pid ax (f (pid_of ax s)) s).

Definition ctrlStartM (ax : Axis) : M unit :=
  on_pid ax ctrlStart;; call (CtrlStart ax).

Definition ctrlStopM (ax : Axis) : M unit :=
  on_pid ax ctrlStop;; call (CtrlStop ax).

(** [ctrlRunPid(&pid, err, filter)] on the controller of axis [ax] with
    the rate-filter handle of axis [fax]: the controller and the filter
    behind the handle are both updated. *)
Definition ctrlRunPidM (ax : Axis) (err : F) (fax : Axis) : M F :=
  pid ← gets (pid_of ax);
  filt ← gets (filter_of fax);
  call (CtrlRunPid ax err filt);;
  modify (set_pid ax (ctrlRunPid pid err filt).2);;
  modify (set_filter fax (ctrlRunPid_filter pid err <$> filt));;
  mret (ctrlRunPid pid err filt).1.

(** *** Public functions *)

(** Lines 149-171. *)
Definition rgltrSetMode (flag : Z) : M unit :=
  if flag =? REG_OFF then
    modify (set_reg_mode flag);;
    ctrlStopM Yaw;; ctrlStopM Pitch;; ctrlStopM Roll;;
    servoStop
  else if flag =? REG_TRACK then
    modify (set_reg_mode flag);;
    ctrlStartM Yaw;; ctrlStartM Pitch;; ctrlStartM Roll;;
    servoStart
  else if flag =? REG_REMOTE_CONTROL then
    modify (set_reg_mode flag);;
    ctrlStopM Yaw;; ctrlStopM Pitch;; ctrlStopM Roll;;
    servoStart
  else mret tt.

(** Lines 173-179.  [params->order] is read first; what lines 175-177 then
    leave in [yawRateFilter] is [yaw_filter_left]. *)
Definition rgltrSetYawRateFilter
    (params : option (RateFilterParamsStruct F)) : M unit :=
  p ← deref params;
  modify (λ s, set_filter Yaw (yaw_filter_left p (yawRateFilter s)) s).

(** Lines 182-187. *)
Definition rgltrSetPitchRateFilter
    (params : option (RateFilterParamsStruct F)) : M unit :=
  p ← deref params;
  modify (set_filter Pitch
    (dfilterCreate (fp_order p) (fp_type p) (fp_xcoeffs p) (fp_ycoeffs p))).

(** Lines 189-194. *)
Definition rgltrSetRollRateFilter
    (params : option (RateFilterParamsStruct F)) : M unit :=
  p ← deref params;
  modify (set_filter Roll
    (dfilterCreate (fp_order p) (fp_type p) (fp_xcoeffs p) (fp_ycoeffs p))).

(** [YAW_SAT_MAX], [YAW_SAT_MIN] and their pitch and roll namesakes. *)
Definition SAT_MAX : F := Flit 1.
Definition SAT_MIN : F := Flit (-1).

(** The body shared by the three PID setters, which differ in the controller
    only (the three pairs of saturation macros have the same values). *)
Definition set_axis_pid (ax : Axis) (params : option (PidParamsStruct F))
  : M unit :=
  p ← deref params;
  on_pid ax (λ pid,
    ctrlSetPidParams pid (pp_ref p) (pp_kp p) (pp_ki p) (pp_kd p));;
  on_pid ax (λ pid, ctrlSetPidOffset pid (pp_offset p));;
  on_pid ax (λ pid, ctrlSetRefWeigts pid (pp_beta p) (pp_gamma p));;
  on_pid ax (λ pid, ctrlSetSaturation pid SAT_MAX SAT_MIN).

(** Lines 196-203, 205-212 and 214-221. *)
Definition rgltrSetYawPid (params : option (PidParamsStruct F)) : M unit :=
  set_axis_pid Yaw params.
Definition rgltrSetPitchPid (params : option (PidParamsStruct F)) : M unit :=
  set_axis_pid Pitch params.
Definition rgltrSetRollPid (params : option (PidParamsStruct F)) : M unit :=
  set_axis_pid Roll params.

(** Lines 223-239. *)
Definition rgltrSetYawRef (ref : F) : M unit :=
  on_pid Yaw (λ pid, ctrlSetRef pid ref).
Definition rgltrSetPitchRef (ref : F) : M unit :=
  on_pid Pitch (λ pid, ctrlSetRef pid ref).
Definition rgltrSetRollRef (ref : F) : M unit :=
  on_pid Roll (λ pid, ctrlSetRef pid ref).

(** Lines 241-246.  [ref] is the caller's quaternion, or NULL; the result is
    the caller's quaternion after the call. *)
Definition rgltrGetQuatRef (ref : option (Quaternion F))
  : M (option (Quaternion F)) :=
  match ref with
  | None => mret None
  | Some _ => r ← gets reference; mret (Some r)
  end.

(** Lines 248-253. *)
Definition rgltrSetQuatRef (ref : option (Quaternion F)) : M unit :=
  match ref with
  | None => mret tt
  | Some q => modify (set_reference q)
  end.

(** Lines 255-261: the three fields of [rc_outputs] are assigned. *)
Definition rgltrSetRemoteControlValues (th st el : F) : M unit :=
  modify (set_rc_outputs (Output th st el)).

(** [memset(dst, 0, sizeof(RegulatorStateStruct))]: every field is zero. *)
Definition zero_quat : Quaternion F :=
  Quat (Flit 0) (Flit 0) (Flit 0) (Flit 0).
Definition zero_state : RegulatorStateStruct F :=
  RegState 0 zero_quat zero_quat zero_quat [# Flit 0; Flit 0; Flit 0].

(** Lines 263-277.  The result is what the call leaves in [*dst]. *)
Definition rgltrGetState : M (RegulatorStateStruct F) :=
  buff ← gets reg_state_buff;
  let '(src, buff') := pbuffGetOldestActive buff in
  modify (set_reg_state_buff buff');;
  match src with
  | None => mret zero_state
  | Some i =>
      dst ← gets (λ s, reg_state s !!! i);
      modify (λ s, set_reg_state_buff (pbuffReturn (reg_state_buff s) i) s);;
      mret dst
  end.

(** *** The control cycle *)

(** Lines 362-374. *)
Definition runYawControl (yaw : F) : M F :=
  pid ← gets yawPid;
  if negb (ctrlIsRunning pid) then mret (Flit 0)
  else ctrlRunPidM Yaw yaw Yaw.

(** Lines 377-389. *)
Definition runPitchControl (pitch : F) : M F :=
  pid ← gets pitchPid;
  if negb (ctrlIsRunning pid) then mret (Flit 0)
  else ctrlRunPidM Pitch pitch Pitch.

(** Lines 391-399. *)
Definition runRollControl (roll : F) : M F :=
  pid ← gets rollPid;
  if negb (ctrlIsRunning pid) then mret (Flit 0)
  else ctrlRunPidM Roll roll Roll.

(** Lines 294-295: [quatConj(&pose, &conj); quatMult(&reference, &conj,
    &error)]. *)
Definition error_quat (ref pose : Quaternion F) : Quaternion F :=
  quatMult ref (quatConj pose).

(** The locals that lines 300-312 assign. *)
Record ErrorTerms : Type :=
  Errors { err_a : F; yaw_err : F; pitch_err : F; roll_err : F }.

(** Lines 300-312.  [a0] is what the automatic variable [a] holds when the
    function is entered: the first branch does not assign it. *)
Definition extract_error (a0 : F) (error : Quaternion F) : ErrorTerms :=
  if Feqb (qw error) (Flit 1) then
    Errors a0 (Flit 0) (Flit 0) (Flit 0)
  else
    let a_2 := bams16Acos (qw error) in
    let a := bams16ToFloatRad (bams16_of_int (a_2 * 2)) in
    let sina_2 := bams16Sin a_2 in
    let scale := Fdiv a sina_2 in
    Errors a (Fmul (qz error) scale) (Fmul (qy error) scale)
      (Fmul (qx error) scale).

(** Lines 314-332: the outputs by mode. *)
Definition mode_outputs (e : ErrorTerms) : M (RegulatorOutput F) :=
  mode ← gets reg_mode;
  if mode =? REG_REMOTE_CONTROL then
    rc ← gets rc_outputs;
    mret (Output (thrust rc) (steer rc) (elevator rc))
  else if mode =? REG_TRACK then
    st ← runYawControl (yaw_err e);
    el ← runPitchControl (pitch_err e);
    rc ← gets rc_outputs;
    mret (Output (thrust rc) st el)
  else
    mret (Output (Flit 0) (Flit 0) (Flit 0)).

(** Lines 334-336: the pitch error goes through the yaw rate filter. *)
Definition filter_pitch_err (pitch : F) : M F :=
  filt ← gets yawRateFilter;
  match filt with
  | Some f =>
      modify (set_filter Yaw (Some (dfilterApply f pitch).2));;
      mret (dfilterApply f pitch).1
  | None => mret pitch
  end.

(** The snapshot that lines 340-349 write into the slot whose old content
    is [old]. *)
Definition snapshot (ticks : Z) (ref pose : Quaternion F) (a : F)
    (roll pitch yaw : F) (u : RegulatorOutput F)
    (old : RegulatorStateStruct F) : RegulatorStateStruct F :=
  RegState ticks ref pose (Quat a roll pitch yaw)
    (vinsert 2%fin (elevator u)
      (vinsert 1%fin (steer u)
        (vinsert 0%fin (thrust u) (st_u old)))).

(** Lines 338-351. *)
Definition log_state (ticks : Z) (pose : Quaternion F) (a : F)
    (roll pitch yaw : F) (u : RegulatorOutput F) : M unit :=
  buff ← gets reg_state_buff;
  let '(state, buff') := pbuffForceGetIdleOldest buff in
  modify (set_reg_state_buff buff');;
  match state with
  | Some i =>
      ref ← gets reference;
      modify (λ s, set_reg_state
        (vinsert i (snapshot ticks ref pose a roll pitch yaw u
                      (reg_state s !!! i)) (reg_state s)) s);;
      modify (λ s, set_reg_state_buff (pbuffAddActive (reg_state_buff s) i) s)
  | None => mret tt
  end.

(** Lines 280-357. *)
Definition rgltrRunController (env : CycleEnv F) : M unit :=
  ready ← gets is_ready;
  if ready =? 0 then mret tt
  else
    let pose := att_quat env in
    ref ← gets reference;
    let error := error_quat ref pose in
    let e := extract_error (auto_a env) error in
    u ← mode_outputs e;
    pitch ← filter_pitch_err (pitch_err e);
    log_state (local_ticks env) pose (err_a e) (roll_err e) pitch (yaw_err e) u;;
    mcSteer (steer u);;
    mcThrust (thrust u);;
    servoSet (elevator u).

(** Lines 111-147.  [states] holds the addresses of the slots, in order. *)
Definition rgltrSetup (ts : F) : M unit :=
  let xcoeffs := [Fdiv (Flit 1) (Flit 6); Flit 3; Flit 3; Flit 1] in
  let ycoeffs := [Flit 0; Flit 0; Fdiv (Flit 1) (Flit 3); Flit 0] in
  modify (set_is_ready 0);;
  modify (set_reg_mode REG_OFF);;
  servoSetup;;
  mcSetup;;
  on_pid Yaw (λ pid, ctrlInitPidParams pid ts);;
  on_pid Pitch (λ pid, ctrlInitPidParams pid ts);;
  on_pid Roll (λ pid, ctrlInitPidParams pid ts);;
  let states := vec_to_list (fun_to_vec (λ i : fin REG_BUFF_SIZE, i)) in
  modify (set_reg_state_buff (pbuffInit states));;
  modify (set_reference (Quat (Flit 1) (Flit 0) (Flit 0) (Flit 0)));;
  let f_params := RateFilterParams 3 0 xcoeffs ycoeffs in
  rgltrSetYawRateFilter (Some f_params);;
  modify (set_is_ready 1).

End Regulator.

(** ** A reference platform

    Executable stand-ins for the collaborators, on binary64 floats: the
    Hamilton product, a 16-bit binary-angle library with low-order
    approximations of acos and sin, a PID controller with a running flag and
    a direct-form IIR filter.  The theorems below hold for every platform;
    this one runs the model on concrete inputs. *)

Module Sim.

Definition float_of_Z (z : Z) : float :=
  if z <? 0 then PrimFloat.opp (PrimFloat.of_uint63 (Uint63.of_Z (- z)))
  else PrimFloat.of_uint63 (Uint63.of_Z z).

(** The integer part of a float, towards zero; 0 for NaN and infinities. *)
Definition Z_of_float (f : float) : Z :=
  match Prim2SF f with
  | S754_finite sgn m e =>
      let v := if 0 <=? e then Z.pos m * 2 ^ e else Z.pos m / 2 ^ (- e) in
      if sgn then - v else v
  | _ => 0
  end.

#[global] Instance scalar : Scalar float :=
  {| Flit := float_of_Z;
     Fmul := PrimFloat.mul;
     Fdiv := PrimFloat.div;
     Feqb := PrimFloat.eqb |}.

Definition conj (q : Quaternion float) : Quaternion float :=
  Quat (qw q) (- qx q)%float (- qy q)%float (- qz q)%float.

Definition mult (a b : Quaternion float) : Quaternion float :=
  Quat
    (qw a * qw b - qx a * qx b - qy a * qy b - qz a * qz b)%float
    (qw a * qx b + qx a * qw b + qy a * qz b - qz a * qy b)%float
    (qw a * qy b - qx a * qz b + qy a * qw b + qz a * qx b)%float
    (qw a * qz b + qx a * qy b - qy a * qx b + qz a * qw b)%float.

#[global] Instance quat : QuatLib float :=
  {| quatConj := conj; quatMult := mult |}.

(** [bams16_t] as a signed 16-bit integer: 0x8000 is a half turn. *)
Definition int16 (z : Z) : Z := (z + 32768) mod 65536 - 32768.

Definition rad_per_bams : float := (3.141592653589793 / 32768)%float.

Definition to_rad (b : Z) : float := (float_of_Z b * rad_per_bams)%float.

(** acos, linear in its argument: 1 gives 0, 0 a quarter turn, -1 a half
    turn. *)
Definition acos16 (w : float) : Z := Z_of_float ((1 - w) * 16384)%float.

(** sin of the angle [x * pi], for x in [0, 1], after Bhaskara. *)
Definition sin16 (b : Z) : float :=
  let x := (float_of_Z b / 32768)%float in
  let p := (x * (1 - x))%float in
  (16 * p / (5 - 4 * p))%float.

#[global] Instance bams : BamsLib float :=
  {| bams16_of_int := int16;
     bams16Acos := acos16;
     bams16Sin := sin16;
     bams16ToFloatRad := to_rad |}.

(** A direct-form IIR filter with its two delay lines. *)
Record filter : Type :=
  Filter {
    f_order : Z; f_type : Z;
    f_xcoeffs : list float; f_ycoeffs : list float;
    f_xs : list float; f_ys : list float;
  }.

Definition dot (a b : list float) : float :=
  foldr PrimFloat.add 0%float (zip_with PrimFloat.mul a b).

Definition create (order type : Z) (xcoeffs ycoeffs : list float)
  : option filter :=
  if order <? 0 then None
  else
    Some (Filter order type xcoeffs ycoeffs
            (replicate (Z.to_nat order) 0%float)
            (replicate (Z.to_nat order) 0%float)).

Definition apply (f : filter) (x : float) : float * filter :=
  let y := (dot (f_xcoeffs f) (x :: f_xs f)
            - dot (tail (f_ycoeffs f)) (f_ys f))%float in
  (y, Filter (f_order f) (f_type f) (f_xcoeffs f) (f_ycoeffs f)
        (take (Z.to_nat (f_order f)) (x :: f_xs f))
        (take (Z.to_nat (f_order f)) (y :: f_ys f))).

#[global] Instance dfilter : DFilterLib float filter :=
  {| dfilterCreate := create; dfilterApply := apply |}.

(** The reference platform is built from the module with lines 175-177
    completed the way the pitch and roll setters are written. *)
#[global] Instance yaw_statement : YawFilterStatement float filter :=
  {| yaw_filter_left := λ p _,
       create (fp_order p) (fp_type p) (fp_xcoeffs p) (fp_ycoeffs p) |}.

(** Another build: line 177 alone runs and [yawRateFilter] is not
    assigned. *)
Definition yaw_unassigned : YawFilterStatement float filter :=
  {| yaw_filter_left := λ _ old, old |}.

(** A PID controller: gains, weights, offset, saturation, the running flag
    and the integrator. *)
Record pid : Type :=
  Pid {
    running : bool;
    ts : float; ref : float;
    kp : float; ki : float; kd : float;
    offset : float; beta : float; gamma : float;
    umax : float; umin : float;
    integral : float;
  }.

Definition pid_zero : pid := (Pid false 0 0 0 0 0 0 0 0 0 0 0)%float.

Definition saturate (p : pid) (u : float) : float :=
  if PrimFloat.ltb (umax p) u then umax p
  else if PrimFloat.ltb u (umin p) then umin p
  else u.

Definition run (p : pid) (err : float) (filt : option filter)
  : float * pid :=
  let rate := match filt with Some f => (apply f err).1 | None => err end in
  let i := (integral p + ki p * err * ts p)%float in
  (saturate p (offset p + kp p * (beta p * ref p - err) + i
               + kd p * (gamma p * ref p - rate))%float,
   Pid (running p) (ts p) (ref p) (kp p) (ki p) (kd p)
       (offset p) (beta p) (gamma p) (umax p) (umin p) i).

#[global] Instance controller : Controller float pid filter :=
  {| ctrlInitPidParams := λ p t,
       (Pid false t 0 0 0 0 0 0 0 0 0 0)%float;
     ctrlSetPidParams := λ p r k_p k_i k_d,
       Pid (running p) (ts p) r k_p k_i k_d (offset p) (beta p) (gamma p)
           (umax p) (umin p) (integral p);
     ctrlSetPidOffset := λ p o,
       Pid (running p) (ts p) (ref p) (kp p) (ki p) (kd p) o (beta p)
           (gamma p) (umax p) (umin p) (integral p);
     ctrlSetRefWeigts := λ p b g,
       Pid (running p) (ts p) (ref p) (kp p) (ki p) (kd p) (offset p) b g
           (umax p) (umin p) (integral p);
     ctrlSetSaturation := λ p hi lo,
       Pid (running p) (ts p) (ref p) (kp p) (ki p) (kd p) (offset p)
           (beta p) (gamma p) hi lo (integral p);
     ctrlSetRef := λ p r,
       Pid (running p) (ts p) r (kp p) (ki p) (kd p) (offset p) (beta p)
           (gamma p) (umax p) (umin p) (integral p);
     ctrlStart := λ p,
       Pid true (ts p) (ref p) (kp p) (ki p) (kd p) (offset p) (beta p)
           (gamma p) (umax p) (umin p) (integral p);
     ctrlStop := λ p,
       Pid false (ts p) (ref p) (kp p) (ki p) (kd p) (offset p) (beta p)
           (gamma p) (umax p) (umin p) (integral p);
     ctrlIsRunning := running;
     ctrlRunPid := run;
     ctrlRunPid_filter := λ p err f, (apply f err).2 |}.

Definition state : Type := Regulator float pid filter.

(** The statics as the C runtime zeroes them before [main]. *)
Definition power_on : state :=
  Statics pid_zero pid_zero pid_zero None None None 0 0
    (Output 0 0 0)%float (Quat 0 0 0 0)%float
    (fun_to_vec (λ _, RegState 0 (Quat 0 0 0 0)%float (Quat 0 0 0 0)%float
                        (Quat 0 0 0 0)%float [# 0; 0; 0]%float))
    (PoolBuff [] []).

Definition identity : Quaternion float := (Quat 1 0 0 0)%float.

(** The statics after [rgltrSetup(0.01)] on a freshly started system. *)
Definition after_setup : state :=
  match rgltrSetup 0.01%float power_on with
  | Done (_, s, _) => s
  | NullDeref => power_on
  end.

(** The statics an operation leaves; a faulting operation leaves them as
    they were. *)
Definition exec {A : Type} (m : M A) (s : state) : state :=
  match m s with
  | Done (_, s', _) => s'
  | NullDeref => s
  end.

(** The yaw rate filter that [rgltrSetup] leaves on this platform. *)
Definition default_filter : filter :=
  Filter 3 0 [1 / 6; 3; 3; 1]%float [0; 0; 1 / 3; 0]%float
    [0; 0; 0]%float [0; 0; 0]%float.

Definition gains : PidParamsStruct float :=
  (PidParams 0 2 0 0.5 0 1 1)%float.

(** Set up, with gains on the three axes and the remote-control values
    thrust 0.5, steer -0.2, elevator 0.1. *)
Definition configured : state :=
  exec (rgltrSetRemoteControlValues 0.5 (-0.2) 0.1)%float
    (exec (rgltrSetRollPid (Some gains))
       (exec (rgltrSetPitchPid (Some gains))
          (exec (rgltrSetYawPid (Some gains)) after_setup))).

Definition tracking : state := exec (rgltrSetMode REG_TRACK) configured.
Definition remote : state :=
  exec (rgltrSetMode REG_REMOTE_CONTROL) tracking.

(** Straight from setup to tracking and on to remote control. *)
Definition handed_over : state :=
  exec (rgltrSetMode REG_REMOTE_CONTROL)
    (exec (rgltrSetMode REG_TRACK) after_setup).

(** A pose rolled away from the identity. *)
Definition rolled : Quaternion float := (Quat 0.8 0.6 0 0)%float.

(** A pose half a turn about the roll axis away from the identity. *)
Definition half_turn : Quaternion float := (Quat 0 1 0 0)%float.

(** What the cycle reads when the vehicle is level, and when it is rolled;
    the automatic variable [a] happens to hold 7. *)
Definition level_env : CycleEnv float := Env identity 17 7%float.
Definition rolled_env : CycleEnv float := Env rolled 18 7%float.
Definition pitched_env : CycleEnv float :=
  Env (Quat 0.8 0 0.6 0)%float 19 7%float.

(** Exact references for the binary-angle library: its own values, read in
    radians. *)
Definition of_rad (r : float) : Z :=
  Z_of_float (r / rad_per_bams + 0.5)%float.
Definition acos_rad (w : float) : float := to_rad (acos16 w).
Definition sin_rad (r : float) : float := sin16 (of_rad r).

(** The configured module with every slot checked out. *)
Definition starved : state := set_reg_state_buff (PoolBuff [] []) configured.

(** Parameters of a first-order rate filter. *)
Definition smoothing : RateFilterParamsStruct float :=
  (RateFilterParams 1 0 [0.5; 0.5] [0; 0])%float.

End Sim.

(** ** Vocabulary of the properties *)

Section Vocabulary.
Context {F Pid Filter : Type}.
Context {SC : Scalar F} {QL : QuatLib F} {BL : BamsLib F}.
Context {CT : Controller F Pid Filter} {DF : DFilterLib F Filter}.
Context {YS : YawFilterStatement F Filter}.

Local Abbreviation State := (Regulator F Pid Filter).
Local Abbreviation Calls := (list (Call F Filter)).

(** The commands to the actuators: [mcSteer], [mcThrust], [servoSet]. *)
Definition is_actuator_command (c : Call F Filter) : bool :=
  match c with
  | McSteer _ | McThrust _ | ServoSet _ => true
  | _ => false
  end.

(** The runs of the PID service on a given axis controller. *)
Definition is_pid_run (ax : Axis) (c : Call F Filter) : bool :=
  match c with
  | CtrlRunPid ax' _ _ => Axis_eqb ax' ax
  | _ => false
  end.

(** The statics and the call log an operation ends with. *)
Definition final_state {A : Type} (r : outcome (A * State * Calls))
  : option State :=
  match r with
  | Done (_, s, _) => Some s
  | NullDeref => None
  end.

Definition calls_of {A : Type} (r : outcome (A * State * Calls))
  : option Calls :=
  match r with
  | Done (_, _, l) => Some l
  | NullDeref => None
  end.

(** What lines 334-336 leave in [pitch_err] and in the statics. *)
Definition filtered_pitch (pitch : F) (s : State) : F :=
  match yawRateFilter s with
  | Some f => (dfilterApply f pitch).1
  | None => pitch
  end.

Definition after_filter (pitch : F) (s : State) : State :=
  match yawRateFilter s with
  | Some f => set_filter Yaw (Some (dfilterApply f pitch).2) s
  | None => s
  end.

(** The slot that lines 338-351 write, if any, and the statics they
    leave. *)
Definition logged_slot (s : State) : option slot :=
  (pbuffForceGetIdleOldest (reg_state_buff s)).1.

Definition after_log (ticks : Z) (pose : Quaternion F) (a : F)
    (roll pitch yaw : F) (u : RegulatorOutput F) (s : State) : State :=
  let b := (pbuffForceGetIdleOldest (reg_state_buff s)).2 in
  match logged_slot s with
  | Some i =>
      set_reg_state_buff (pbuffAddActive b i)
        (set_reg_state
           (vinsert i (snapshot ticks (reference s) pose a roll pitch yaw u
                         (reg_state s !!! i)) (reg_state s)) s)
  | None => set_reg_state_buff b s
  end.

(** The error terms of a cycle: lines 290-312 on the statics [s]. *)
Definition cycle_errors (env : CycleEnv F) (s : State) : ErrorTerms :=
  extract_error (auto_a env) (error_quat (reference s) (att_quat env)).

(** The statics with another roll controller and roll rate filter. *)
Definition with_roll (p : Pid) (f : option Filter) (s : State) : State :=
  set_filter Roll f (set_pid Roll p s).

(** What the mode branch (lines 314-332) leaves alone: it may run the yaw
    and pitch controllers and their filters, and nothing else. *)
Record mode_frame (e : ErrorTerms) (s s1 : State) (l1 : Calls) : Prop :=
  ModeFrame {
    mf_ready : is_ready s1 = is_ready s;
    mf_mode : reg_mode s1 = reg_mode s;
    mf_rc : rc_outputs s1 = rc_outputs s;
    mf_reference : reference s1 = reference s;
    mf_state : reg_state s1 = reg_state s;
    mf_buff : reg_state_buff s1 = reg_state_buff s;
    mf_rollPid : rollPid s1 = rollPid s;
    mf_rollFilter : rollRateFilter s1 = rollRateFilter s;
    mf_yawFilter :
      yawRateFilter s1 =
        if (reg_mode s =? REG_TRACK) && ctrlIsRunning (yawPid s) then
          ctrlRunPid_filter (yawPid s) (yaw_err e) <$> yawRateFilter s
        else yawRateFilter s;
    mf_no_actuator : List.filter is_actuator_command l1 = [];
    mf_no_roll : List.filter (is_pid_run Roll) l1 = [];
  }.

(** The states the module can be in: those that [rgltrSetup] leaves, and
    those that follow by mode changes, control cycles, new remote-control
    values, new reference quaternions and telemetry reads. *)
Inductive reachable : State → Prop :=
  | reach_setup (ts : F) (s s' : State) (l : Calls) :
      rgltrSetup ts s = Done (tt, s', l) → reachable s'
  | reach_mode (flag : Z) (s s' : State) (l : Calls) :
      reachable s → rgltrSetMode flag s = Done (tt, s', l) → reachable s'
  | reach_cycle (env : CycleEnv F) (s s' : State) (l : Calls) :
      reachable s → rgltrRunController env s = Done (tt, s', l) →
      reachable s'
  | reach_remote (th st el : F) (s s' : State) (l : Calls) :
      reachable s →
      rgltrSetRemoteControlValues th st el s = Done (tt, s', l) →
      reachable s'
  | reach_quat (q : option (Quaternion F)) (s s' : State) (l : Calls) :
      reachable s → rgltrSetQuatRef q s = Done (tt, s', l) → reachable s'
  | reach_read (dst : RegulatorStateStruct F) (s s' : State) (l : Calls) :
      reachable s → rgltrGetState s = Done (dst, s', l) → reachable s'.

(** No axis controller reports running. *)
Definition all_stopped (s : State) : Prop :=
  ctrlIsRunning (yawPid s) = false
  ∧ ctrlIsRunning (pitchPid s) = false
  ∧ ctrlIsRunning (rollPid s) = false.

(** The statics with the three controllers changed by [f] and the mode set
    to [mode]. *)
Definition with_mode (mode : Z) (f : Pid → Pid) (s : State) : State :=
  set_pid Roll (f (rollPid s))
    (set_pid Pitch (f (pitchPid s))
       (set_pid Yaw (f (yawPid s)) (set_reg_mode mode s))).

(** The error extractor as section 4.1 of the specification words it, over
    an exact [acos] and an exact [sin]: for [qerr = reference (x)
    conjugate(pose)], no rotation gives zero errors and a zero angle;
    otherwise the half angle is [acos(qerr.w)], the angle is twice that,
    [scale] is the angle over [sin] of the half angle, and the yaw, pitch
    and roll errors are [scale] times [qerr.z], [qerr.y] and [qerr.x]. *)
Definition extractError_spec (acos sin : F → F) (ref pose : Quaternion F)
  : ErrorTerms :=
  let qerr := quatMult ref (quatConj pose) in
  if Feqb (qw qerr) (Flit 1) then
    Errors (Flit 0) (Flit 0) (Flit 0) (Flit 0)
  else
    let half := acos (qw qerr) in
    let angle := Fmul (Flit 2) half in
    let scale := Fdiv angle (sin half) in
    Errors angle (Fmul (qz qerr) scale) (Fmul (qy qerr) scale)
      (Fmul (qx qerr) scale).

(** The values [rgltrSetMode] stores. *)
Definition valid_mode (m : Z) : Prop :=
  m = REG_OFF ∨ m = REG_TRACK ∨ m = REG_REMOTE_CONTROL.

(** The calls to the PID service. *)
Definition is_controller_call (c : Call F Filter) : bool :=
  match c with
  | CtrlStart _ | CtrlStop _ | CtrlRunPid _ _ _ => true
  | _ => false
  end.

(** Two states of the statics that differ in the telemetry pool at most. *)
Definition same_but_pool (s s' : State) : Prop :=
  yawPid s' = yawPid s ∧ pitchPid s' = pitchPid s ∧ rollPid s' = rollPid s
  ∧ yawRateFilter s' = yawRateFilter s
  ∧ pitchRateFilter s' = pitchRateFilter s
  ∧ rollRateFilter s' = rollRateFilter s
  ∧ is_ready s' = is_ready s ∧ reg_mode s' = reg_mode s
  ∧ rc_outputs s' = rc_outputs s ∧ reference s' = reference s
  ∧ reg_state s' = reg_state s.

(** The slots a pool has in its two queues. *)
Definition queued (b : PoolBuffStruct) : nat :=
  (length (idle_q b) + length (active_q b))%nat.

(** The steer and elevator commands of a tracking cycle: the PID output of
    a running controller, 0 for a stopped one. *)
Definition track_steer (e : ErrorTerms) (s : State) : F :=
  if ctrlIsRunning (yawPid s)
  then (ctrlRunPid (yawPid s) (yaw_err e) (yawRateFilter s)).1
  else Flit 0.

Definition track_elevator (e : ErrorTerms) (s : State) : F :=
  if ctrlIsRunning (pitchPid s)
  then (ctrlRunPid (pitchPid s) (pitch_err e) (pitchRateFilter s)).1
  else Flit 0.

(** The runs of the PID service in a tracking cycle. *)
Definition track_runs (e : ErrorTerms) (s : State) : Calls :=
  (if ctrlIsRunning (yawPid s)
   then [CtrlRunPid Yaw (yaw_err e) (yawRateFilter s)] else [])
  ++ (if ctrlIsRunning (pitchPid s)
      then [CtrlRunPid Pitch (pitch_err e) (pitchRateFilter s)] else []).

(** Two states of the statics that differ in the controller of one axis
    at most. *)
Definition same_but_pid (ax : Axis) (s s' : State) : Prop :=
  (∀ ax', ax' ≠ ax → pid_of ax' s' = pid_of ax' s)
  ∧ yawRateFilter s' = yawRateFilter s
  ∧ pitchRateFilter s' = pitchRateFilter s
  ∧ rollRateFilter s' = rollRateFilter s
  ∧ is_ready s' = is_ready s ∧ reg_mode s' = reg_mode s
  ∧ rc_outputs s' = rc_outputs s ∧ reference s' = reference s
  ∧ reg_state s' = reg_state s
  ∧ reg_state_buff s' = reg_state_buff s.

(** The value of an [int] converted to a 16-bit two's complement
    [bams16_t]. *)
Definition wrap16 (z : Z) : Z := (z + 32768) mod 65536 - 32768.

(** Twice a binary half angle of at most a half turn, in the signed 16-bit
    range: from a quarter turn on, a full turn is taken off. *)
Definition doubled16 (half : Z) : Z :=
  if half <? 16384 then half * 2 else half * 2 - 65536.

(** Two states of the statics that differ in the reference at most. *)
Definition same_but_reference (s s' : State) : Prop :=
  yawPid s' = yawPid s ∧ pitchPid s' = pitchPid s ∧ rollPid s' = rollPid s
  ∧ yawRateFilter s' = yawRateFilter s
  ∧ pitchRateFilter s' = pitchRateFilter s
  ∧ rollRateFilter s' = rollRateFilter s
  ∧ is_ready s' = is_ready s ∧ reg_mode s' = reg_mode s
  ∧ rc_outputs s' = rc_outputs s
  ∧ reg_state s' = reg_state s
  ∧ reg_state_buff s' = reg_state_buff s.

End Vocabulary.

(** ** Properties *)

Section Properties.
Context {F Pid Filter : Type}.
Context {SC : Scalar F} {QL : QuatLib F} {BL : BamsLib F}.
Context {CT : Controller F Pid Filter} {DF : DFilterLib F Filter}.
Context {YS : YawFilterStatement F Filter}.

Local Abbreviation State := (Regulator F Pid Filter).
Local Abbreviation Calls := (list (Call F Filter)).

(** Unfolds the operations of the monad. *)
Ltac unfold_monad :=
  unfold mbind, M_bind, mret, M_ret, gets, modify, call, deref, on_pid.

(** Splits the statics into their fields, so that every read computes. *)
Ltac split_state s :=
  let b := fresh "buff" in
  destruct s as [? ? ? ? ? ? ? ? ? ? ? b]; destruct b as [? ?].

(** *** The phases of the control cycle, as equations *)

Lemma runYawControl_run (yaw : F) (s : State) :
  runYawControl yaw s =
    if ctrlIsRunning (yawPid s) then
      Done ((ctrlRunPid (yawPid s) yaw (yawRateFilter s)).1,
            set_filter Yaw
              (ctrlRunPid_filter (yawPid s) yaw <$> yawRateFilter s)
              (set_pid Yaw (ctrlRunPid (yawPid s) yaw (yawRateFilter s)).2 s),
            [CtrlRunPid Yaw yaw (yawRateFilter s)])
    else Done (Flit 0, s, []).
Proof.
  unfold runYawControl, ctrlRunPidM. unfold_monad. cbn.
  destruct (ctrlIsRunning (yawPid s)); reflexivity.
Qed.

Lemma runPitchControl_run (pitch : F) (s : State) :
  runPitchControl pitch s =
    if ctrlIsRunning (pitchPid s) then
      Done ((ctrlRunPid (pitchPid s) pitch (pitchRateFilter s)).1,
            set_filter Pitch
              (ctrlRunPid_filter (pitchPid s) pitch <$> pitchRateFilter s)
              (set_pid Pitch
                 (ctrlRunPid (pitchPid s) pitch (pitchRateFilter s)).2 s),
            [CtrlRunPid Pitch pitch (pitchRateFilter s)])
    else Done (Flit 0, s, []).
Proof.
  unfold runPitchControl, ctrlRunPidM. unfold_monad. cbn.
  destruct (ctrlIsRunning (pitchPid s)); reflexivity.
Qed.

Lemma mode_outputs_remote (e : ErrorTerms) (s : State) :
  reg_mode s = REG_REMOTE_CONTROL →
  mode_outputs e s = Done (rc_outputs s, s, []).
Proof.
  intros Hmode. unfold mode_outputs. unfold_monad. cbn.
  rewrite Hmode. cbn. by destruct (rc_outputs s).
Qed.

Lemma mode_outputs_off (e : ErrorTerms) (s : State) :
  reg_mode s ≠ REG_REMOTE_CONTROL →
  reg_mode s ≠ REG_TRACK →
  mode_outputs e s = Done (Output (Flit 0) (Flit 0) (Flit 0), s, []).
Proof.
  intros Hrc Htrack. unfold mode_outputs. unfold_monad. cbn.
  apply Z.eqb_neq in Hrc, Htrack. by rewrite Hrc, Htrack.
Qed.

Lemma mode_outputs_track (e : ErrorTerms) (s : State) :
  reg_mode s = REG_TRACK →
  mode_outputs e s =
    match runYawControl (yaw_err e) s with
    | Done (st, s1, l1) =>
        match runPitchControl (pitch_err e) s1 with
        | Done (el, s2, l2) =>
            Done (Output (thrust (rc_outputs s2)) st el, s2, l1 ++ l2)
        | NullDeref => NullDeref
        end
    | NullDeref => NullDeref
    end.
Proof.
  intros Hmode. unfold mode_outputs. unfold_monad. cbn.
  rewrite Hmode. cbn.
  destruct (runYawControl (yaw_err e) s) as [[[st s1] l1]|]; [|done].
  destruct (runPitchControl (pitch_err e) s1) as [[[el s2] l2]|]; [|done].
  by rewrite app_nil_r.
Qed.

Lemma filter_pitch_err_run (pitch : F) (s : State) :
  filter_pitch_err pitch s
    = Done (filtered_pitch pitch s, after_filter pitch s, []).
Proof.
  unfold filter_pitch_err, filtered_pitch, after_filter. unfold_monad. cbn.
  by destruct (yawRateFilter s).
Qed.

Lemma log_state_run (ticks : Z) (pose : Quaternion F) (a roll pitch yaw : F)
    (u : RegulatorOutput F) (s : State) :
  log_state ticks pose a roll pitch yaw u s
    = Done (tt, after_log ticks pose a roll pitch yaw u s, []).
Proof.
  unfold log_state, after_log, logged_slot. unfold_monad. cbn.
  by destruct (pbuffForceGetIdleOldest (reg_state_buff s)) as [[i|] b].
Qed.

Lemma mode_outputs_total (e : ErrorTerms) (s : State) :
  ∃ u s1 l1, mode_outputs e s = Done (u, s1, l1) ∧ mode_frame e s s1 l1.
Proof.
  destruct (Z.eq_dec (reg_mode s) REG_REMOTE_CONTROL) as [Hrc|Hrc].
  { eexists _, _, _. split; [by apply mode_outputs_remote|].
    split; try reflexivity. by rewrite Hrc. }
  destruct (Z.eq_dec (reg_mode s) REG_TRACK) as [Htr|Htr].
  2: { eexists _, _, _. split; [by apply mode_outputs_off|].
       split; try reflexivity.
       apply Z.eqb_neq in Htr. by rewrite Htr. }
  rewrite (mode_outputs_track e s Htr), runYawControl_run.
  split_state s. cbn in Htr. subst. cbn.
  destruct (ctrlIsRunning yawPid0) eqn:Hyaw; rewrite runPitchControl_run; cbn;
    destruct (ctrlIsRunning pitchPid0) eqn:Hpitch; cbn;
    eexists _, _, _; (split; [reflexivity|]).
  all: split; cbn; rewrite ?Hyaw; reflexivity.
Qed.

(** An initialized cycle is the mode branch, the filter, the telemetry
    write and the three actuator commands, in this order. *)
Lemma rgltrRunController_run (env : CycleEnv F) (s s1 : State)
    (u : RegulatorOutput F) (l1 : Calls) :
  is_ready s ≠ 0 →
  mode_outputs (cycle_errors env s) s = Done (u, s1, l1) →
  let e := cycle_errors env s in
  rgltrRunController env s
    = Done (tt,
            after_log (local_ticks env) (att_quat env) (err_a e) (roll_err e)
              (filtered_pitch (pitch_err e) s1) (yaw_err e) u
              (after_filter (pitch_err e) s1),
            l1 ++ [McSteer (steer u); McThrust (thrust u);
                   ServoSet (elevator u)]).
Proof.
  intros Hready Hmode e. subst e. unfold cycle_errors in *.
  apply Z.eqb_neq in Hready.
  unfold rgltrRunController, mcSteer, mcThrust, servoSet. unfold_monad. cbn.
  rewrite Hready, Hmode, filter_pitch_err_run, log_state_run. cbn.
  reflexivity.
Qed.

Lemma rgltrRunController_not_ready (env : CycleEnv F) (s : State) :
  is_ready s = 0 → rgltrRunController env s = Done (tt, s, []).
Proof.
  intros Hready. unfold rgltrRunController. unfold_monad. cbn.
  by rewrite Hready.
Qed.

(** The telemetry write of a cycle: the slot it takes receives the
    snapshot, and the yaw rate filter is as the filter step left it. *)
Lemma after_log_slot (ticks : Z) (pose : Quaternion F) (a roll pitch yaw : F)
    (u : RegulatorOutput F) (s : State) (i : slot) :
  logged_slot s = Some i →
  reg_state (after_log ticks pose a roll pitch yaw u s) !!! i
    = snapshot ticks (reference s) pose a roll pitch yaw u (reg_state s !!! i).
Proof.
  intros Hslot. unfold after_log. rewrite Hslot. cbn.
  apply vlookup_insert.
Qed.

Lemma after_log_yawRateFilter (ticks : Z) (pose : Quaternion F)
    (a roll pitch yaw : F) (u : RegulatorOutput F) (s : State) :
  yawRateFilter (after_log ticks pose a roll pitch yaw u s) = yawRateFilter s.
Proof. unfold after_log. by destruct (logged_slot s). Qed.

Lemma after_filter_frame (pitch : F) (s : State) :
  reference (after_filter pitch s) = reference s
  ∧ reg_state (after_filter pitch s) = reg_state s
  ∧ logged_slot (after_filter pitch s) = logged_slot s.
Proof. unfold after_filter, logged_slot. by destruct (yawRateFilter s). Qed.

(** One initialized cycle, phase by phase. *)
Lemma cycle_snapshot (env : CycleEnv F) (s : State) :
  is_ready s ≠ 0 →
  let e := cycle_errors env s in
  ∃ u s1 l1 s',
    mode_outputs e s = Done (u, s1, l1)
    ∧ mode_frame e s s1 l1
    ∧ rgltrRunController env s
      = Done (tt, s', l1 ++ [McSteer (steer u); McThrust (thrust u);
                              ServoSet (elevator u)])
    ∧ yawRateFilter s' = yawRateFilter (after_filter (pitch_err e) s1)
    ∧ ∀ i, logged_slot s = Some i →
        reg_state s' !!! i
          = snapshot (local_ticks env) (reference s) (att_quat env)
              (err_a e) (roll_err e) (filtered_pitch (pitch_err e) s1)
              (yaw_err e) u (reg_state s !!! i).
Proof.
  intros Hready e. subst e. set (e := cycle_errors env s).
  destruct (mode_outputs_total e s) as (u & s1 & l1 & Hrun & Hframe).
  eexists u, s1, l1, _. split; [done|]. split; [done|].
  split; [by apply rgltrRunController_run|].
  split; [apply after_log_yawRateFilter|].
  intros i Hslot.
  destruct (after_filter_frame (pitch_err e) s1) as (Href & Hst & Hsl).
  rewrite after_log_slot; fold e.
  - by rewrite Href, Hst, (mf_reference _ _ _ _ Hframe),
      (mf_state _ _ _ _ Hframe).
  - rewrite Hsl. unfold logged_slot.
    by rewrite (mf_buff _ _ _ _ Hframe).
Qed.

(** The cycle does not read the roll controller or the roll rate filter. *)
Lemma mode_outputs_with_roll (e : ErrorTerms) (s s1 : State)
    (u : RegulatorOutput F) (l1 : Calls) (p : Pid) (f : option Filter) :
  mode_outputs e s = Done (u, s1, l1) →
  mode_outputs e (with_roll p f s) = Done (u, with_roll p f s1, l1).
Proof.
  split_state s.
  unfold mode_outputs, runYawControl, runPitchControl, ctrlRunPidM, with_roll.
  unfold_monad. cbn.
  destruct (reg_mode0 =? REG_REMOTE_CONTROL); cbn;
    [by intros [= <- <- <-]|].
  destruct (reg_mode0 =? REG_TRACK); cbn; [|by intros [= <- <- <-]].
  destruct (ctrlIsRunning yawPid0); cbn;
    destruct (ctrlIsRunning pitchPid0); cbn; by intros [= <- <- <-].
Qed.

Lemma after_filter_with_roll (pitch : F) (s : State) (p : Pid)
    (f : option Filter) :
  after_filter pitch (with_roll p f s) = with_roll p f (after_filter pitch s)
  ∧ filtered_pitch pitch (with_roll p f s) = filtered_pitch pitch s.
Proof.
  unfold after_filter, filtered_pitch, with_roll. cbn.
  by destruct (yawRateFilter s).
Qed.

Lemma after_log_with_roll (ticks : Z) (pose : Quaternion F)
    (a roll pitch yaw : F) (u : RegulatorOutput F) (s : State) (p : Pid)
    (f : option Filter) :
  after_log ticks pose a roll pitch yaw u (with_roll p f s)
    = with_roll p f (after_log ticks pose a roll pitch yaw u s).
Proof.
  unfold after_log, logged_slot, with_roll. cbn.
  by destruct (pbuffForceGetIdleOldest (reg_state_buff s)) as [[i|] b].
Qed.

Lemma after_filter_roll (pitch : F) (s : State) :
  rollPid (after_filter pitch s) = rollPid s
  ∧ rollRateFilter (after_filter pitch s) = rollRateFilter s.
Proof. unfold after_filter. by destruct (yawRateFilter s). Qed.

Lemma after_log_roll (ticks : Z) (pose : Quaternion F)
    (a roll pitch yaw : F) (u : RegulatorOutput F) (s : State) :
  rollPid (after_log ticks pose a roll pitch yaw u s) = rollPid s
  ∧ rollRateFilter (after_log ticks pose a roll pitch yaw u s)
    = rollRateFilter s.
Proof. unfold after_log. by destruct (logged_slot s). Qed.

(** *** Actuator commands *)

(** C4.  In every initialized cycle, whatever the mode, the reference, the
    pose and the remote-control values, the actuators receive exactly three
    commands: [mcSteer], [mcThrust] and [servoSet], in this order.  When the
    mode is [REG_OFF], they are the only calls of the cycle and all three
    carry the value 0. *)
Theorem off_mode_commands_zero (env : CycleEnv F) (s : State) :
  is_ready s ≠ 0 →
  (∃ s' l u,
     rgltrRunController env s = Done (tt, s', l)
     ∧ List.filter is_actuator_command l
       = [McSteer (steer u); McThrust (thrust u); ServoSet (elevator u)])
  ∧ (reg_mode s = REG_OFF →
     ∃ s', rgltrRunController env s
           = Done (tt, s', [McSteer (Flit 0); McThrust (Flit 0);
                            ServoSet (Flit 0)])).
Proof.
  intros Hready. split.
  - destruct (mode_outputs_total (cycle_errors env s) s)
      as (u & s1 & l1 & Hrun & Hframe).
    eexists _, _, u. split; [by apply rgltrRunController_run|].
    by rewrite List.filter_app, (mf_no_actuator _ _ _ _ Hframe).
  - intros Hoff. eexists.
    erewrite rgltrRunController_run;
      last (apply mode_outputs_off; by rewrite Hoff); [reflexivity|done].
Qed.

(** C5.  In [REG_REMOTE_CONTROL] mode an initialized cycle that follows
    [rgltrSetRemoteControlValues(th, st, el)] makes exactly the calls
    [mcSteer(st)], [mcThrust(th)] and [servoSet(el)], whatever the reference
    and the pose are. *)
Theorem remote_mode_commands_override (env : CycleEnv F) (s : State)
    (th st el : F) :
  is_ready s ≠ 0 →
  reg_mode s = REG_REMOTE_CONTROL →
  ∃ s1 s2,
    rgltrSetRemoteControlValues th st el s = Done (tt, s1, [])
    ∧ rgltrRunController env s1
      = Done (tt, s2, [McSteer st; McThrust th; ServoSet el]).
Proof.
  intros Hready Hmode. eexists _, _. split; [reflexivity|].
  erewrite rgltrRunController_run;
    last (by apply mode_outputs_remote); [reflexivity|done].
Qed.

(** *** The roll controller *)

(** C7.  A control cycle makes no call of the PID service on the roll
    controller, leaves the roll controller and the roll rate filter as they
    were, and makes the same calls, with the same values, whatever the roll
    controller and the roll rate filter are.  The roll pipeline itself,
    [runRollControl], would run the PID service on a running roll
    controller. *)
Theorem roll_controller_never_run (env : CycleEnv F) (s : State) :
  (∃ s' l,
     rgltrRunController env s = Done (tt, s', l)
     ∧ List.filter (is_pid_run Roll) l = []
     ∧ rollPid s' = rollPid s
     ∧ rollRateFilter s' = rollRateFilter s
     ∧ ∀ p f, rgltrRunController env (with_roll p f s)
              = Done (tt, with_roll p f s', l))
  ∧ (∀ roll,
       ctrlIsRunning (rollPid s) = true →
       calls_of (runRollControl roll s)
         = Some [CtrlRunPid Roll roll (rollRateFilter s)]).
Proof.
  split.
  - destruct (Z.eq_dec (is_ready s) 0) as [Hoff|Hready].
    { eexists s, []. split; [by apply rgltrRunController_not_ready|].
      repeat split. intros p f. by apply rgltrRunController_not_ready. }
    destruct (mode_outputs_total (cycle_errors env s) s)
      as (u & s1 & l1 & Hrun & Hframe).
    eexists _, _. split; [by apply rgltrRunController_run|].
    split; [by rewrite List.filter_app, (mf_no_roll _ _ _ _ Hframe)|].
    split.
    { rewrite (proj1 (after_log_roll _ _ _ _ _ _ _ _)),
        (proj1 (after_filter_roll _ _)).
      apply (mf_rollPid _ _ _ _ Hframe). }
    split.
    { rewrite (proj2 (after_log_roll _ _ _ _ _ _ _ _)),
        (proj2 (after_filter_roll _ _)).
      apply (mf_rollFilter _ _ _ _ Hframe). }
    intros p f.
    erewrite rgltrRunController_run;
      last (by apply mode_outputs_with_roll); [|done].
    change (cycle_errors env (with_roll p f s)) with (cycle_errors env s).
    destruct (after_filter_with_roll
                (pitch_err (cycle_errors env s)) s1 p f) as [-> ->].
    by rewrite after_log_with_roll.
  - intros roll Hrun. unfold runRollControl, ctrlRunPidM. unfold_monad. cbn.
    by rewrite Hrun.
Qed.

(** *** The cross-axis filter *)

(** C6.  In an initialized cycle, in every mode, with a filter [f] behind
    [yawRateFilter]: once the mode branch has produced the outputs [u] and
    left the filter in the state [f1] ([f] itself, unless the yaw controller
    ran on it), the pitch error goes through [f1], the filter advances, and
    the snapshot written in this cycle carries the filtered pitch error. *)
Theorem pitch_error_through_yaw_filter (env : CycleEnv F) (s : State)
    (f : Filter) :
  is_ready s ≠ 0 →
  yawRateFilter s = Some f →
  let e := cycle_errors env s in
  ∃ u s1 l1 f1 s',
    mode_outputs e s = Done (u, s1, l1)
    ∧ yawRateFilter s1 = Some f1
    ∧ f1 = (if (reg_mode s =? REG_TRACK) && ctrlIsRunning (yawPid s)
            then ctrlRunPid_filter (yawPid s) (yaw_err e) f else f)
    ∧ rgltrRunController env s
      = Done (tt, s', l1 ++ [McSteer (steer u); McThrust (thrust u);
                              ServoSet (elevator u)])
    ∧ yawRateFilter s' = Some (dfilterApply f1 (pitch_err e)).2
    ∧ ∀ i, logged_slot s = Some i →
        st_error (reg_state s' !!! i)
          = Quat (err_a e) (roll_err e) (dfilterApply f1 (pitch_err e)).1
              (yaw_err e).
Proof.
  intros Hready Hfilter e.
  destruct (cycle_snapshot env s Hready)
    as (u & s1 & l1 & s' & Hmode & Hframe & Hrun & Hyaw & Hslot).
  fold e in Hmode, Hframe, Hyaw, Hslot.
  pose proof (mf_yawFilter _ _ _ _ Hframe) as Hf1.
  rewrite Hfilter in Hf1.
  assert (yawRateFilter s1
          = Some (if (reg_mode s =? REG_TRACK) && ctrlIsRunning (yawPid s)
                  then ctrlRunPid_filter (yawPid s) (yaw_err e) f else f))
    as Hs1 by (rewrite Hf1; by destruct (_ && _)).
  eexists u, s1, l1, _, s'. split; [done|].
  split; [exact Hs1|]. split; [done|]. split; [done|].
  split.
  - rewrite Hyaw. unfold after_filter. by rewrite Hs1.
  - intros i Hi. rewrite (Hslot i Hi). unfold filtered_pitch.
    by rewrite Hs1.
Qed.

(** *** Modes *)

Lemma rgltrSetMode_off (s : State) :
  rgltrSetMode REG_OFF s
    = Done (tt, with_mode REG_OFF ctrlStop s,
            [CtrlStop Yaw; CtrlStop Pitch; CtrlStop Roll; ServoStop]).
Proof. reflexivity. Qed.

Lemma rgltrSetMode_track (s : State) :
  rgltrSetMode REG_TRACK s
    = Done (tt, with_mode REG_TRACK ctrlStart s,
            [CtrlStart Yaw; CtrlStart Pitch; CtrlStart Roll; ServoStart]).
Proof. reflexivity. Qed.

Lemma rgltrSetMode_remote (s : State) :
  rgltrSetMode REG_REMOTE_CONTROL s
    = Done (tt, with_mode REG_REMOTE_CONTROL ctrlStop s,
            [CtrlStop Yaw; CtrlStop Pitch; CtrlStop Roll; ServoStart]).
Proof. reflexivity. Qed.

Lemma rgltrSetMode_other (flag : Z) (s : State) :
  flag ≠ REG_OFF → flag ≠ REG_TRACK → flag ≠ REG_REMOTE_CONTROL →
  rgltrSetMode flag s = Done (tt, s, []).
Proof.
  intros Hoff Htrack Hrc. unfold rgltrSetMode.
  apply Z.eqb_neq in Hoff, Htrack, Hrc. by rewrite Hoff, Htrack, Hrc.
Qed.

Lemma rgltrSetup_run (ts : F) (s : State) :
  ∃ s',
    rgltrSetup ts s = Done (tt, s', [ServoSetup; McSetup])
    ∧ is_ready s' = 1
    ∧ reg_mode s' = REG_OFF
    ∧ reference s' = Quat (Flit 1) (Flit 0) (Flit 0) (Flit 0)
    ∧ yawRateFilter s'
      = yaw_filter_left
          (RateFilterParams 3 0
             [Fdiv (Flit 1) (Flit 6); Flit 3; Flit 3; Flit 1]
             [Flit 0; Flit 0; Fdiv (Flit 1) (Flit 3); Flit 0])
          (yawRateFilter s)
    ∧ logged_slot s' = Some 0%fin.
Proof. eexists. split; [reflexivity|]. by repeat split. Qed.

(** A cycle keeps the mode, and in remote-control mode the controllers. *)
Lemma rgltrRunController_mode (env : CycleEnv F) (s s' : State) (l : Calls) :
  rgltrRunController env s = Done (tt, s', l) →
  reg_mode s' = reg_mode s
  ∧ (reg_mode s = REG_REMOTE_CONTROL →
     yawPid s' = yawPid s ∧ pitchPid s' = pitchPid s
     ∧ rollPid s' = rollPid s).
Proof.
  destruct (Z.eq_dec (is_ready s) 0) as [Hoff|Hready].
  { rewrite rgltrRunController_not_ready by done. by intros [= <- <-]. }
  destruct (mode_outputs_total (cycle_errors env s) s)
    as (u & s1 & l1 & Hmode & Hframe).
  erewrite rgltrRunController_run by done. intros [= <- <-]. split.
  - unfold after_log, after_filter.
    destruct (logged_slot _), (yawRateFilter s1); cbn;
      apply (mf_mode _ _ _ _ Hframe).
  - intros Hrc. rewrite mode_outputs_remote in Hmode by done.
    injection Hmode as <- <- <-.
    unfold after_log, after_filter.
    by destruct (logged_slot _), (yawRateFilter s).
Qed.

Lemma rgltrGetState_mode (dst : RegulatorStateStruct F) (s s' : State)
    (l : Calls) :
  rgltrGetState s = Done (dst, s', l) →
  reg_mode s' = reg_mode s ∧ yawPid s' = yawPid s
  ∧ pitchPid s' = pitchPid s ∧ rollPid s' = rollPid s.
Proof.
  unfold rgltrGetState. unfold_monad. cbn.
  destruct (pbuffGetOldestActive (reg_state_buff s)) as [[i|] b]; cbn;
    by intros [= <- <- <-].
Qed.

(** In remote-control mode every axis controller is stopped. *)
Lemma reachable_remote_stopped (CC : ControllerContract CT) (s : State) :
  reachable s → reg_mode s = REG_REMOTE_CONTROL → all_stopped s.
Proof.
  induction 1 as [ts s s' l Hrun|flag s s' l _ IH Hrun|env s s' l _ IH Hrun
                 |th st el s s' l _ IH Hrun|q s s' l _ IH Hrun
                 |dst s s' l _ IH Hrun]; intros Hmode.
  - destruct (rgltrSetup_run ts s) as (s2 & Hs2 & _ & Hoff & _).
    rewrite Hs2 in Hrun. injection Hrun as <- <-.
    by rewrite Hoff in Hmode.
  - destruct (Z.eq_dec flag REG_OFF) as [->|Hoff].
    { rewrite rgltrSetMode_off in Hrun. by injection Hrun as <- <-. }
    destruct (Z.eq_dec flag REG_TRACK) as [->|Htrack].
    { rewrite rgltrSetMode_track in Hrun. by injection Hrun as <- <-. }
    destruct (Z.eq_dec flag REG_REMOTE_CONTROL) as [->|Hrc].
    { rewrite rgltrSetMode_remote in Hrun. injection Hrun as <- <-.
      repeat split; apply ctrlIsRunning_ctrlStop. }
    rewrite rgltrSetMode_other in Hrun by done. injection Hrun as <- <-.
    by apply IH.
  - destruct (rgltrRunController_mode env s s' l Hrun) as [Hsame Hpids].
    rewrite Hsame in Hmode. destruct (Hpids Hmode) as (Hy & Hp & Hr).
    unfold all_stopped. rewrite Hy, Hp, Hr. by apply IH.
  - injection Hrun as <- <-. by apply IH.
  - destruct q; injection Hrun as <- <-; by apply IH.
  - destruct (rgltrGetState_mode dst s s' l Hrun) as (Hsame & Hy & Hp & Hr).
    rewrite Hsame in Hmode.
    unfold all_stopped. rewrite Hy, Hp, Hr. by apply IH.
Qed.

(** C3.  From every prior state, [rgltrSetMode(REG_OFF)] stops the three
    axis controllers and the servo, [rgltrSetMode(REG_TRACK)] starts the
    three axis controllers and the servo, and
    [rgltrSetMode(REG_REMOTE_CONTROL)] stops the three axis controllers and
    starts the servo.  Entering a mode a second time makes the same calls
    again and finishes.  In every reachable state whose mode is
    [REG_REMOTE_CONTROL], no axis controller reports running. *)
Theorem remote_mode_controllers_stopped (CC : ControllerContract CT) :
  (∀ s, rgltrSetMode REG_OFF s
        = Done (tt, with_mode REG_OFF ctrlStop s,
                [CtrlStop Yaw; CtrlStop Pitch; CtrlStop Roll; ServoStop]))
  ∧ (∀ s, rgltrSetMode REG_TRACK s
          = Done (tt, with_mode REG_TRACK ctrlStart s,
                  [CtrlStart Yaw; CtrlStart Pitch; CtrlStart Roll;
                   ServoStart]))
  ∧ (∀ s, rgltrSetMode REG_REMOTE_CONTROL s
          = Done (tt, with_mode REG_REMOTE_CONTROL ctrlStop s,
                  [CtrlStop Yaw; CtrlStop Pitch; CtrlStop Roll;
                   ServoStart]))
  ∧ (∀ flag s, ∃ s1 s2 l,
       rgltrSetMode flag s = Done (tt, s1, l)
       ∧ rgltrSetMode flag s1 = Done (tt, s2, l))
  ∧ (∀ s, reachable s → reg_mode s = REG_REMOTE_CONTROL → all_stopped s).
Proof.
  split; [apply rgltrSetMode_off|]. split; [apply rgltrSetMode_track|].
  split; [apply rgltrSetMode_remote|]. split.
  - intros flag s.
    destruct (Z.eq_dec flag REG_OFF) as [->|Hoff];
      [by eexists _, _, _|].
    destruct (Z.eq_dec flag REG_TRACK) as [->|Htrack];
      [by eexists _, _, _|].
    destruct (Z.eq_dec flag REG_REMOTE_CONTROL) as [->|Hrc];
      [by eexists _, _, _|].
    exists s, s, []. by rewrite !rgltrSetMode_other.
  - intros s. by apply reachable_remote_stopped.
Qed.

(** *** Telemetry reads *)

(** C9.  [rgltrGetState] always finishes, makes no call and leaves the
    slots' contents alone.  With no active slot it yields the all-zero
    snapshot and leaves the statics, the pool included, as they were.
    Otherwise it yields the content of the oldest active slot, which leaves
    the active queue and joins the idle slots. *)
Theorem telemetry_read (s : State) :
  ∃ dst s',
    rgltrGetState s = Done (dst, s', [])
    ∧ reg_state s' = reg_state s
    ∧ match active_q (reg_state_buff s) with
      | [] => dst = zero_state ∧ s' = s
      | i :: rest =>
          dst = reg_state s !!! i
          ∧ active_q (reg_state_buff s') = rest
          ∧ idle_q (reg_state_buff s') = idle_q (reg_state_buff s) ++ [i]
      end.
Proof.
  split_state s. unfold rgltrGetState, pbuffGetOldestActive. unfold_monad.
  cbn. destruct active_q0 as [|i rest]; cbn; by eexists _, _.
Qed.

(** *** Null arguments *)

(** C8, as the code has it.  [rgltrSetQuatRef] and [rgltrGetQuatRef] return
    at once on a null argument: nothing is written and no call is made.  The
    three PID setters and the three rate-filter setters read through their
    argument without a test: on a null argument they dereference it. *)
Theorem null_argument_setters (s : State) :
  rgltrSetQuatRef None s = Done (tt, s, [])
  ∧ rgltrGetQuatRef None s = Done (None, s, [])
  ∧ rgltrSetYawPid None s = NullDeref
  ∧ rgltrSetPitchPid None s = NullDeref
  ∧ rgltrSetRollPid None s = NullDeref
  ∧ rgltrSetYawRateFilter None s = NullDeref
  ∧ rgltrSetPitchRateFilter None s = NullDeref
  ∧ rgltrSetRollRateFilter None s = NullDeref.
Proof. by repeat split. Qed.

(** *** Error extraction *)

(** The branch for [error.w == 1.0] assigns the three axis errors and
    leaves [a] as it found it. *)
Lemma extract_error_degenerate (a0 : F) (error : Quaternion F) :
  Feqb (qw error) (Flit 1) = true →
  extract_error a0 error = Errors a0 (Flit 0) (Flit 0) (Flit 0).
Proof. intros Hw. unfold extract_error. by rewrite Hw. Qed.

(** In a cycle that takes this branch the snapshot records, as the angle,
    what [a] held on entry. *)
Lemma degenerate_cycle_angle (env : CycleEnv F) (s : State) :
  is_ready s ≠ 0 →
  Feqb (qw (error_quat (reference s) (att_quat env))) (Flit 1) = true →
  ∃ s' l,
    rgltrRunController env s = Done (tt, s', l)
    ∧ yaw_err (cycle_errors env s) = Flit 0
    ∧ pitch_err (cycle_errors env s) = Flit 0
    ∧ roll_err (cycle_errors env s) = Flit 0
    ∧ ∀ i, logged_slot s = Some i →
        qw (st_error (reg_state s' !!! i)) = auto_a env.
Proof.
  intros Hready Hw.
  destruct (cycle_snapshot env s Hready)
    as (u & s1 & l1 & s' & _ & _ & Hrun & _ & Hslot).
  unfold cycle_errors in *.
  rewrite (extract_error_degenerate _ _ Hw) in *.
  eexists _, _. split; [done|]. repeat split.
  intros i Hi. by rewrite (Hslot i Hi).
Qed.

Lemma wrap16_doubled (half : Z) :
  0 ≤ half ≤ 32768 → wrap16 (half * 2) = doubled16 half.
Proof.
  intros Hrange. unfold wrap16, doubled16.
  destruct (Z.ltb_spec half 16384) as [Hlow|Hhigh].
  - rewrite Z.mod_small by lia. lia.
  - rewrite <- (Z.mod_add _ (-1)) by lia. rewrite Z.mod_small by lia. lia.
Qed.

(** C2, as the code has it.  For a reference and a pose whose error
    quaternion [qerr = reference (x) conjugate(pose)] has [qerr.w] other
    than 1, with [bams16_t] a 16-bit two's complement integer and the
    binary-angle library exact at [qerr.w] (the half angle it returns, at
    most a half turn, is [acos(qerr.w)] in radians and its sine is [sin] of
    that): the full angle is twice the binary half angle reduced to the
    signed 16-bit range, in radians; [scale] is that angle over
    [sin(acos(qerr.w))]; the yaw, pitch and roll errors are [qerr.z],
    [qerr.y] and [qerr.x] times [scale]; and an initialized cycle records
    this angle, roll error and yaw error in its snapshot.  Below a quarter
    turn of half angle, where the doubling does not wrap, and with radians
    linear in the binary angle there, these are the error terms of the
    specification, with the angle [2 * acos(qerr.w)]. *)
Theorem extraction_wraps_full_angle (acos sin : F → F)
    (ref pose : Quaternion F) :
  let qerr := quatMult ref (quatConj pose) in
  let half := bams16Acos (qw qerr) in
  let angle := bams16ToFloatRad (doubled16 half) in
  let scale := Fdiv angle (sin (acos (qw qerr))) in
  Feqb (qw qerr) (Flit 1) = false →
  0 ≤ half ≤ 32768 →
  bams16_of_int (half * 2) = wrap16 (half * 2) →
  bams16ToFloatRad half = acos (qw qerr) →
  bams16Sin half = sin (acos (qw qerr)) →
  error_quat ref pose = qerr
  ∧ (∀ a0, extract_error a0 (error_quat ref pose)
           = Errors angle (Fmul (qz qerr) scale) (Fmul (qy qerr) scale)
               (Fmul (qx qerr) scale))
  ∧ (half < 16384 →
     bams16ToFloatRad (half * 2) = Fmul (Flit 2) (acos (qw qerr)) →
     ∀ a0, extract_error a0 (error_quat ref pose)
           = extractError_spec acos sin ref pose)
  ∧ ∀ env s,
      is_ready s ≠ 0 → reference s = ref → att_quat env = pose →
      ∃ s' l,
        rgltrRunController env s = Done (tt, s', l)
        ∧ ∀ i, logged_slot s = Some i →
            qw (st_error (reg_state s' !!! i)) = angle
            ∧ qx (st_error (reg_state s' !!! i)) = Fmul (qx qerr) scale
            ∧ qz (st_error (reg_state s' !!! i)) = Fmul (qz qerr) scale.
Proof.
  intros qerr half angle scale Hw Hrange Hwrap Hacos Hsin.
  assert (∀ a0, extract_error a0 (error_quat ref pose)
                = Errors angle (Fmul (qz qerr) scale) (Fmul (qy qerr) scale)
                    (Fmul (qx qerr) scale)) as Hcode.
  { intros a0. unfold extract_error, error_quat.
    fold qerr. rewrite Hw. fold half.
    rewrite Hwrap, (wrap16_doubled half Hrange), Hsin. reflexivity. }
  split; [done|]. split; [done|]. split.
  - intros Hlow Hlinear a0. rewrite Hcode.
    unfold extractError_spec. fold qerr. rewrite Hw.
    subst scale angle. unfold doubled16.
    destruct (Z.ltb_spec half 16384) as [_|Hhigh]; [|lia].
    by rewrite Hlinear.
  - intros env s Hready Href Hpose.
    destruct (cycle_snapshot env s Hready)
      as (u & s1 & l1 & s' & _ & _ & Hrun & _ & Hslot).
    unfold cycle_errors in Hslot. rewrite Href, Hpose, Hcode in Hslot.
    eexists _, _. split; [done|].
    intros i Hi. by rewrite (Hslot i Hi).
Qed.

(** *** Setup *)

(** C10 at its failing input, [rgltrSetup(ts)] from any state.  The
    setup finishes after setting up the servo and the motor driver, with
    the module ready, the mode [REG_OFF] and the identity as reference, and
    it calls [rgltrSetYawRateFilter] with order 3, type 0, feed-forward
    coefficients 1/6, 3, 3, 1 and feedback coefficients 0, 0, 1/3, 0.  What
    that call leaves in [yawRateFilter] is what the unfinished statement of
    lines 175-177 leaves, not a filter that the code is seen to create:
    when it leaves no handle, the first cycle records the pitch error
    unfiltered. *)
Theorem setup_yaw_filter_not_determined (ts : F) (s : State) :
  ∃ s',
    rgltrSetup ts s = Done (tt, s', [ServoSetup; McSetup])
    ∧ is_ready s' = 1
    ∧ reg_mode s' = REG_OFF
    ∧ reference s' = Quat (Flit 1) (Flit 0) (Flit 0) (Flit 0)
    ∧ yawRateFilter s'
      = yaw_filter_left
          (RateFilterParams 3 0
             [Fdiv (Flit 1) (Flit 6); Flit 3; Flit 3; Flit 1]
             [Flit 0; Flit 0; Fdiv (Flit 1) (Flit 3); Flit 0])
          (yawRateFilter s)
    ∧ ∀ env,
        yawRateFilter s' = None →
        ∃ s2,
          rgltrRunController env s'
            = Done (tt, s2, [McSteer (Flit 0); McThrust (Flit 0);
                             ServoSet (Flit 0)])
          ∧ yawRateFilter s2 = None
          ∧ qy (st_error (reg_state s2 !!! 0%fin))
            = pitch_err (cycle_errors env s').
Proof.
  destruct (rgltrSetup_run ts s)
    as (s' & Hrun & Hready & Hoff & Href & Hfilter & Hslot).
  exists s'. do 5 (split; [done|]).
  intros env Hnone.
  assert (is_ready s' ≠ 0) as Hready' by by rewrite Hready.
  destruct (cycle_snapshot env s' Hready')
    as (u & s1 & l1 & s2 & Hmode & _ & Hcycle & Hyaw & Hsnap).
  rewrite mode_outputs_off in Hmode by by rewrite Hoff.
  injection Hmode as <- <- <-.
  exists s2. split; [done|]. split.
  - rewrite Hyaw. unfold after_filter. by rewrite Hnone.
  - pose proof (Hsnap _ Hslot) as Hs0.
    unfold filtered_pitch in Hs0. rewrite Hnone in Hs0.
    exact (f_equal (λ st, qy (st_error st)) Hs0).
Qed.

(** *** Further properties of the control cycle *)

(** X1.  A cycle that finds [is_ready] clear returns at once: the statics
    are as they were and no call is made, whatever the mode and the pose. *)
Theorem cycle_before_setup_is_noop (env : CycleEnv F) (s : State) :
  is_ready s = 0 →
  rgltrRunController env s = Done (tt, s, [])
  ∧ ∀ flag th st el s1 l1 s2,
      rgltrSetMode flag s = Done (tt, s1, l1) →
      rgltrSetRemoteControlValues th st el s1 = Done (tt, s2, []) →
      rgltrRunController env s2 = Done (tt, s2, []).
Proof.
  intros Hready. split; [by apply rgltrRunController_not_ready|].
  intros flag th st el s1 l1 s2 Hmode Hrc.
  apply rgltrRunController_not_ready.
  injection Hrc as <-. cbn.
  destruct (Z.eq_dec flag REG_OFF) as [->|Hoff].
  { rewrite rgltrSetMode_off in Hmode. by injection Hmode as <- _. }
  destruct (Z.eq_dec flag REG_TRACK) as [->|Htrack].
  { rewrite rgltrSetMode_track in Hmode. by injection Hmode as <- _. }
  destruct (Z.eq_dec flag REG_REMOTE_CONTROL) as [->|Hrc].
  { rewrite rgltrSetMode_remote in Hmode. by injection Hmode as <- _. }
  rewrite rgltrSetMode_other in Hmode by done. by injection Hmode as <- _.
Qed.

(** An initialized cycle in [REG_TRACK] mode, call by call. *)
Lemma rgltrRunController_track (env : CycleEnv F) (s : State) :
  is_ready s ≠ 0 →
  reg_mode s = REG_TRACK →
  let e := cycle_errors env s in
  ∃ s',
    rgltrRunController env s
      = Done (tt, s',
              track_runs e s
              ++ [McSteer (track_steer e s);
                  McThrust (thrust (rc_outputs s));
                  ServoSet (track_elevator e s)]).
Proof.
  intros Hready Htrack e.
  assert (mode_outputs e s
          = match runPitchControl (pitch_err e)
                    (if ctrlIsRunning (yawPid s)
                     then set_filter Yaw
                            (ctrlRunPid_filter (yawPid s) (yaw_err e)
                               <$> yawRateFilter s)
                            (set_pid Yaw
                               (ctrlRunPid (yawPid s) (yaw_err e)
                                  (yawRateFilter s)).2 s)
                     else s) with
            | Done (el, s2, l2) =>
                Done (Output (thrust (rc_outputs s2)) (track_steer e s) el,
                      s2,
                      (if ctrlIsRunning (yawPid s)
                       then [CtrlRunPid Yaw (yaw_err e) (yawRateFilter s)]
                       else []) ++ l2)
            | NullDeref => NullDeref
            end) as Hmode.
  { rewrite mode_outputs_track, runYawControl_run by done.
    unfold track_steer. by destruct (ctrlIsRunning (yawPid s)). }
  rewrite runPitchControl_run in Hmode.
  unfold track_runs, track_elevator. split_state s. cbn in *.
  revert Hmode.
  destruct (ctrlIsRunning yawPid0); cbn;
    destruct (ctrlIsRunning pitchPid0); cbn;
    intros Hmode; eexists;
    (erewrite rgltrRunController_run; [|done|exact Hmode]); reflexivity.
Qed.

(** X2.  An initialized cycle in [REG_TRACK] mode runs the yaw controller
    on the yaw error with the yaw rate filter, then the pitch controller on
    the unfiltered pitch error with the pitch rate filter, each only if it
    reports running, and then commands the yaw output as steer, the stored
    remote-control thrust as thrust and the pitch output as elevator; a
    stopped controller contributes 0 and is not run. *)
Theorem track_mode_commands (env : CycleEnv F) (s : State) :
  is_ready s ≠ 0 →
  reg_mode s = REG_TRACK →
  let e := cycle_errors env s in
  ∃ s',
    rgltrRunController env s
      = Done (tt, s',
              track_runs e s
              ++ [McSteer (track_steer e s);
                  McThrust (thrust (rc_outputs s));
                  ServoSet (track_elevator e s)]).
Proof. apply rgltrRunController_track. Qed.

(** X3.  A cycle in a mode other than [REG_TRACK] makes no call to the PID
    service and leaves the three controllers and the pitch and roll rate
    filters as they were: bypassed controllers do not compute. *)
Theorem bypassed_controllers_untouched (env : CycleEnv F) (s : State) :
  reg_mode s ≠ REG_TRACK →
  ∃ s' l,
    rgltrRunController env s = Done (tt, s', l)
    ∧ List.filter is_controller_call l = []
    ∧ yawPid s' = yawPid s ∧ pitchPid s' = pitchPid s
    ∧ rollPid s' = rollPid s
    ∧ pitchRateFilter s' = pitchRateFilter s
    ∧ rollRateFilter s' = rollRateFilter s.
Proof.
  intros Htrack.
  destruct (Z.eq_dec (is_ready s) 0) as [Hoff|Hready].
  { exists s, []. by rewrite rgltrRunController_not_ready. }
  assert (∃ u, mode_outputs (cycle_errors env s) s = Done (u, s, []))
    as [u Hmode].
  { destruct (Z.eq_dec (reg_mode s) REG_REMOTE_CONTROL).
    - eexists. by apply mode_outputs_remote.
    - eexists. by apply mode_outputs_off. }
  eexists _, _. split; [by apply rgltrRunController_run|].
  split; [done|].
  unfold after_log, after_filter.
  by destruct (logged_slot _), (yawRateFilter s).
Qed.

(** The mode branch neither attaches nor detaches a rate filter. *)
Lemma mode_outputs_attached (e : ErrorTerms) (s s1 : State)
    (u : RegulatorOutput F) (l1 : Calls) (ax : Axis) :
  mode_outputs e s = Done (u, s1, l1) →
  is_Some (filter_of ax s1) ↔ is_Some (filter_of ax s).
Proof.
  split_state s.
  unfold mode_outputs, runYawControl, runPitchControl, ctrlRunPidM.
  unfold_monad. cbn.
  destruct (reg_mode0 =? REG_REMOTE_CONTROL); cbn;
    [by intros [= <- <- <-]|].
  destruct (reg_mode0 =? REG_TRACK); cbn; [|by intros [= <- <- <-]].
  destruct (ctrlIsRunning yawPid0); cbn;
    destruct (ctrlIsRunning pitchPid0); cbn; intros [= <- <- <-];
    destruct ax; cbn; rewrite ?fmap_is_Some; done.
Qed.

Lemma after_filter_buff (pitch : F) (s : State) :
  reg_state_buff (after_filter pitch s) = reg_state_buff s.
Proof. unfold after_filter. by destruct (yawRateFilter s). Qed.

(** Writing the three elements of [u] leaves nothing of its old content. *)
Lemma vec3_overwrite (v : vec F 3) (a b c : F) :
  vinsert 2%fin c (vinsert 1%fin b (vinsert 0%fin a v)) = [# a; b; c].
Proof. inv_vec v. by intros. Qed.

(** When the pool hands out no slot it is left as it was. *)
Lemma pbuffForceGetIdleOldest_none (b : PoolBuffStruct) :
  (pbuffForceGetIdleOldest b).1 = None →
  (pbuffForceGetIdleOldest b).2 = b ∧ idle_q b = [] ∧ active_q b = [].
Proof.
  destruct b as [idle active].
  unfold pbuffForceGetIdleOldest, pbuffGetIdle, pbuffGetOldestActive. cbn.
  by destruct idle, active.
Qed.

(** The slots and the pool after an initialized cycle. *)
Lemma cycle_pool (env : CycleEnv F) (s : State) :
  is_ready s ≠ 0 →
  let e := cycle_errors env s in
  let b := (pbuffForceGetIdleOldest (reg_state_buff s)).2 in
  ∃ u s1 l1 s',
    mode_outputs e s = Done (u, s1, l1)
    ∧ rgltrRunController env s
      = Done (tt, s', l1 ++ [McSteer (steer u); McThrust (thrust u);
                              ServoSet (elevator u)])
    ∧ reg_state s'
      = match logged_slot s with
        | Some i =>
            vinsert i
              (snapshot (local_ticks env) (reference s) (att_quat env)
                 (err_a e) (roll_err e) (filtered_pitch (pitch_err e) s1)
                 (yaw_err e) u (reg_state s !!! i)) (reg_state s)
        | None => reg_state s
        end
    ∧ reg_state_buff s'
      = match logged_slot s with
        | Some i => pbuffAddActive b i
        | None => b
        end.
Proof.
  intros Hready e b. subst e b. set (e := cycle_errors env s).
  destruct (mode_outputs_total e s) as (u & s1 & l1 & Hmode & Hframe).
  eexists u, s1, l1, _. split; [done|].
  split; [by apply rgltrRunController_run|]. fold e.
  destruct (after_filter_frame (pitch_err e) s1) as (Href & Hst & Hsl).
  pose proof (after_filter_buff (pitch_err e) s1) as Hbuff.
  assert (logged_slot s1 = logged_slot s) as Hsame
    by (unfold logged_slot; by rewrite (mf_buff _ _ _ _ Hframe)).
  unfold after_log. rewrite Hsl, Hsame, Hbuff, Href, Hst.
  rewrite (mf_buff _ _ _ _ Hframe), (mf_reference _ _ _ _ Hframe),
    (mf_state _ _ _ _ Hframe).
  destruct (logged_slot s); cbn; [done|]. split; [|done].
  by rewrite Hst, (mf_state _ _ _ _ Hframe).
Qed.

(** What every cycle keeps. *)
Lemma rgltrRunController_config (env : CycleEnv F) (s : State) :
  ∃ s' l,
    rgltrRunController env s = Done (tt, s', l)
    ∧ is_ready s' = is_ready s
    ∧ reg_mode s' = reg_mode s
    ∧ rc_outputs s' = rc_outputs s
    ∧ reference s' = reference s
    ∧ ∀ ax, is_Some (filter_of ax s') ↔ is_Some (filter_of ax s).
Proof.
  destruct (Z.eq_dec (is_ready s) 0) as [Hoff|Hready].
  { exists s, []. by rewrite rgltrRunController_not_ready. }
  destruct (mode_outputs_total (cycle_errors env s) s)
    as (u & s1 & l1 & Hmode & Hframe).
  eexists _, _. split; [by apply rgltrRunController_run|].
  set (p := pitch_err (cycle_errors env s)).
  assert (∀ ax, is_Some (filter_of ax (after_filter p s1))
                ↔ is_Some (filter_of ax s)) as Hattached.
  { intros ax. rewrite <- (mode_outputs_attached _ _ _ _ _ ax Hmode).
    unfold after_filter. destruct (yawRateFilter s1) eqn:Hyaw; [|done].
    destruct ax; cbn; rewrite ?Hyaw; by rewrite ?is_Some_alt. }
  unfold after_log.
  destruct (logged_slot _); cbn; unfold after_filter;
    destruct (yawRateFilter s1) eqn:Hyaw; cbn;
    (split; [apply (mf_ready _ _ _ _ Hframe)|]);
    (split; [apply (mf_mode _ _ _ _ Hframe)|]);
    (split; [apply (mf_rc _ _ _ _ Hframe)|]);
    (split; [apply (mf_reference _ _ _ _ Hframe)|]);
    intros ax; specialize (Hattached ax); unfold after_filter in Hattached;
    rewrite Hyaw in Hattached; by destruct ax.
Qed.

(** X4.  A control cycle keeps the ready flag, the mode, the stored
    remote-control values and the reference, and it neither attaches nor
    detaches a rate filter: configuration changes only through the
    setters. *)
Theorem cycle_keeps_configuration (env : CycleEnv F) (s : State) :
  ∃ s' l,
    rgltrRunController env s = Done (tt, s', l)
    ∧ is_ready s' = is_ready s
    ∧ reg_mode s' = reg_mode s
    ∧ rc_outputs s' = rc_outputs s
    ∧ reference s' = reference s
    ∧ ∀ ax, is_Some (filter_of ax s') ↔ is_Some (filter_of ax s).
Proof. apply rgltrRunController_config. Qed.

(** X5.  When an initialized cycle gets a slot, the snapshot it writes is
    complete and agrees with what the cycle did: the time is the clock's,
    the reference and the pose are those the errors were computed from, and
    [u] holds the thrust, steer and elevator values commanded to the
    actuators; no other slot is written, and the slot becomes the newest
    active one. *)
Theorem snapshot_records_commands (env : CycleEnv F) (s : State) (i : slot) :
  is_ready s ≠ 0 →
  logged_slot s = Some i →
  ∃ s' l u,
    rgltrRunController env s = Done (tt, s', l)
    ∧ List.filter is_actuator_command l
      = [McSteer (steer u); McThrust (thrust u); ServoSet (elevator u)]
    ∧ st_time (reg_state s' !!! i) = local_ticks env
    ∧ st_ref (reg_state s' !!! i) = reference s
    ∧ st_pose (reg_state s' !!! i) = att_quat env
    ∧ st_u (reg_state s' !!! i) = [# thrust u; steer u; elevator u]
    ∧ (∀ j, j ≠ i → reg_state s' !!! j = reg_state s !!! j)
    ∧ last (active_q (reg_state_buff s')) = Some i.
Proof.
  intros Hready Hslot.
  destruct (cycle_pool env s Hready)
    as (u & s1 & l1 & s' & Hmode & Hrun & Hstate & Hbuff).
  destruct (mode_outputs_total (cycle_errors env s) s)
    as (u' & s1' & l1' & Hmode' & Hframe).
  rewrite Hmode in Hmode'. injection Hmode' as <- <- <-.
  rewrite Hslot in Hstate, Hbuff.
  eexists s', _, u. split; [exact Hrun|].
  split; [by rewrite List.filter_app, (mf_no_actuator _ _ _ _ Hframe)|].
  rewrite Hstate, Hbuff. unfold slot in *. rewrite vlookup_insert. cbn.
  do 3 (split; [done|]). split; [apply vec3_overwrite|].
  split; [intros j Hj; by apply vlookup_insert_ne|].
  apply last_snoc.
Qed.

(** X6.  When the pool hands out no slot, an initialized cycle still
    commands the three actuators; it writes no slot and leaves the pool as
    it was. *)
Theorem cycle_without_slot (env : CycleEnv F) (s : State) :
  is_ready s ≠ 0 →
  logged_slot s = None →
  ∃ s' l u,
    rgltrRunController env s = Done (tt, s', l)
    ∧ List.filter is_actuator_command l
      = [McSteer (steer u); McThrust (thrust u); ServoSet (elevator u)]
    ∧ reg_state s' = reg_state s
    ∧ reg_state_buff s' = reg_state_buff s.
Proof.
  intros Hready Hslot.
  destruct (cycle_pool env s Hready)
    as (u & s1 & l1 & s' & Hmode & Hrun & Hstate & Hbuff).
  destruct (mode_outputs_total (cycle_errors env s) s)
    as (u' & s1' & l1' & Hmode' & Hframe).
  rewrite Hmode in Hmode'. injection Hmode' as <- <- <-.
  rewrite Hslot in Hstate, Hbuff.
  eexists s', _, u. split; [exact Hrun|].
  split; [by rewrite List.filter_app, (mf_no_actuator _ _ _ _ Hframe)|].
  split; [done|].
  rewrite Hbuff. by apply pbuffForceGetIdleOldest_none.
Qed.

(** *** Further properties of the setters, the modes and the telemetry *)

(** What a mode change keeps and what it stores. *)
Lemma rgltrSetMode_frame (flag : Z) (s : State) :
  ∃ s' l,
    rgltrSetMode flag s = Done (tt, s', l)
    ∧ List.filter is_actuator_command l = []
    ∧ yawRateFilter s' = yawRateFilter s
    ∧ pitchRateFilter s' = pitchRateFilter s
    ∧ rollRateFilter s' = rollRateFilter s
    ∧ is_ready s' = is_ready s
    ∧ rc_outputs s' = rc_outputs s
    ∧ reference s' = reference s
    ∧ reg_state s' = reg_state s
    ∧ reg_state_buff s' = reg_state_buff s
    ∧ (valid_mode flag → reg_mode s' = flag)
    ∧ (¬ valid_mode flag → s' = s ∧ l = []).
Proof.
  unfold valid_mode.
  destruct (Z.eq_dec flag REG_OFF) as [->|Hoff].
  { eexists _, _. split; [apply rgltrSetMode_off|].
    repeat split; try done; exfalso; auto. }
  destruct (Z.eq_dec flag REG_TRACK) as [->|Htrack].
  { eexists _, _. split; [apply rgltrSetMode_track|].
    repeat split; try done; exfalso; auto. }
  destruct (Z.eq_dec flag REG_REMOTE_CONTROL) as [->|Hrc].
  { eexists _, _. split; [apply rgltrSetMode_remote|].
    repeat split; try done; exfalso; auto. }
  exists s, []. split; [by apply rgltrSetMode_other|].
  repeat split; try done. by intros [?|[?|?]].
Qed.

Lemma rgltrGetState_run (s : State) :
  rgltrGetState s
    = Done (match active_q (reg_state_buff s) with
            | [] => zero_state
            | i :: _ => reg_state s !!! i
            end,
            set_reg_state_buff
              match active_q (reg_state_buff s) with
              | [] => reg_state_buff s
              | i :: rest => PoolBuff (idle_q (reg_state_buff s) ++ [i]) rest
              end s,
            []).
Proof.
  split_state s. unfold rgltrGetState, pbuffGetOldestActive. unfold_monad.
  cbn. by destruct active_q0.
Qed.

Lemma rgltrSetup_frame (ts : F) (s : State) :
  ∃ s',
    rgltrSetup ts s = Done (tt, s', [ServoSetup; McSetup])
    ∧ is_ready s' = 1
    ∧ reg_mode s' = REG_OFF
    ∧ rc_outputs s' = rc_outputs s
    ∧ pitchRateFilter s' = pitchRateFilter s
    ∧ rollRateFilter s' = rollRateFilter s
    ∧ reg_state s' = reg_state s
    ∧ idle_q (reg_state_buff s') = [0; 1; 2; 3; 4]%fin
    ∧ active_q (reg_state_buff s') = [].
Proof. eexists. split; [reflexivity|]. by repeat split. Qed.

(** Taking a slot and adding it to the active queue keeps the number of
    queued slots, and so does a read. *)
Lemma publish_queued (b : PoolBuffStruct) :
  queued match (pbuffForceGetIdleOldest b).1 with
         | Some i => pbuffAddActive (pbuffForceGetIdleOldest b).2 i
         | None => (pbuffForceGetIdleOldest b).2
         end = queued b.
Proof.
  destruct b as [idle active].
  unfold pbuffForceGetIdleOldest, pbuffGetIdle, pbuffGetOldestActive,
    pbuffAddActive, queued.
  destruct idle, active; cbn; rewrite ?length_app; cbn; lia.
Qed.

Lemma read_queued (b : PoolBuffStruct) :
  queued match active_q b with
         | [] => b
         | i :: rest => PoolBuff (idle_q b ++ [i]) rest
         end = queued b.
Proof.
  destruct b as [idle active]. unfold queued.
  destruct active; cbn; rewrite ?length_app; cbn; lia.
Qed.

Lemma queued_logged_slot (s : State) :
  queued (reg_state_buff s) = REG_BUFF_SIZE → is_Some (logged_slot s).
Proof.
  split_state s.
  unfold queued, logged_slot, pbuffForceGetIdleOldest, pbuffGetIdle,
    pbuffGetOldestActive. cbn.
  by destruct idle_q0, active_q0.
Qed.

(** What holds of every reachable state: the module is ready, the mode is
    one of the three, and the five slots are all queued. *)
Lemma reachable_invariant (s : State) :
  reachable s →
  is_ready s = 1 ∧ valid_mode (reg_mode s)
  ∧ queued (reg_state_buff s) = REG_BUFF_SIZE.
Proof.
  induction 1 as [ts s s' l Hrun|flag s s' l _ IH Hrun|env s s' l _ IH Hrun
                 |th st el s s' l _ IH Hrun|q s s' l _ IH Hrun
                 |dst s s' l _ IH Hrun].
  - destruct (rgltrSetup_frame ts s)
      as (s2 & Hs2 & Hready & Hoff & _ & _ & _ & _ & Hidle & Hactive).
    rewrite Hs2 in Hrun. injection Hrun as <- <-.
    split; [done|]. split; [by left|].
    unfold queued. by rewrite Hidle, Hactive.
  - destruct IH as (Hready & Hvalid & Hqueued).
    destruct (rgltrSetMode_frame flag s)
      as (s2 & l2 & Hs2 & _ & _ & _ & _ & Hr & _ & _ & _ & Hb & Hv & Hn).
    rewrite Hs2 in Hrun. injection Hrun as <- <-.
    split; [by rewrite Hr|]. split; [|by rewrite Hb].
    destruct (decide (flag = REG_OFF ∨ flag = REG_TRACK
                      ∨ flag = REG_REMOTE_CONTROL)) as [Hflag|Hflag].
    + by rewrite (Hv Hflag).
    + by destruct (Hn Hflag) as [-> _].
  - destruct IH as (Hready & Hvalid & Hqueued).
    assert (is_ready s ≠ 0) as Hready' by by rewrite Hready.
    destruct (rgltrRunController_config env s)
      as (s2 & l2 & Hs2 & Hr & Hm & _).
    destruct (cycle_pool env s Hready')
      as (u & s1 & l1 & s3 & _ & Hs3 & _ & Hbuff).
    rewrite Hs2 in Hrun, Hs3. injection Hrun as <- <-.
    injection Hs3 as <- _.
    split; [by rewrite Hr|]. split; [by rewrite Hm|].
    rewrite Hbuff, <- Hqueued. apply publish_queued.
  - injection Hrun as <- <-. by apply IH.
  - destruct q; injection Hrun as <- <-; by apply IH.
  - rewrite rgltrGetState_run in Hrun. injection Hrun as _ <- _.
    destruct IH as (Hready & Hvalid & Hqueued).
    split; [done|]. split; [done|].
    cbn. rewrite <- Hqueued. apply read_queued.
Qed.

(** X7.  [rgltrSetQuatRef] followed by [rgltrGetQuatRef] gives the
    quaternion back; the setter changes nothing but the reference (the
    controllers, the rate filters, the ready flag, the mode, the
    remote-control values, the slots and the pool are as before), the
    getter changes nothing at all, and neither makes a call; the next cycle
    computes its errors against this reference and records it in the
    snapshot. *)
Theorem reference_round_trip (q old : Quaternion F) (s : State) :
  ∃ s1,
    rgltrSetQuatRef (Some q) s = Done (tt, s1, [])
    ∧ rgltrGetQuatRef (Some old) s1 = Done (Some q, s1, [])
    ∧ reference s1 = q
    ∧ same_but_reference s s1
    ∧ ∀ env i,
        is_ready s ≠ 0 → logged_slot s = Some i →
        ∃ s2 l,
          rgltrRunController env s1 = Done (tt, s2, l)
          ∧ cycle_errors env s1
            = extract_error (auto_a env) (error_quat q (att_quat env))
          ∧ st_ref (reg_state s2 !!! i) = q.
Proof.
  exists (set_reference q s). do 3 (split; [done|]).
  split; [by repeat split|].
  intros env i Hready Hslot.
  destruct (cycle_snapshot env (set_reference q s) Hready)
    as (u & s1 & l1 & s2 & _ & _ & Hrun & _ & Hsnap).
  eexists _, _. split; [exact Hrun|]. split; [done|].
  by rewrite (Hsnap i Hslot).
Qed.

(** X8.  [rgltrSetMode] stores a flag that is one of the three modes and
    ignores any other flag, leaving the statics as they were and making no
    call.  In every case it commands no actuator and leaves the ready flag,
    the rate filters, the reference, the remote-control values and the
    telemetry alone; it does not test the ready flag. *)
Theorem set_mode_stores_valid_flags_only (flag : Z) (s : State) :
  ∃ s' l,
    rgltrSetMode flag s = Done (tt, s', l)
    ∧ List.filter is_actuator_command l = []
    ∧ yawRateFilter s' = yawRateFilter s
    ∧ pitchRateFilter s' = pitchRateFilter s
    ∧ rollRateFilter s' = rollRateFilter s
    ∧ is_ready s' = is_ready s
    ∧ rc_outputs s' = rc_outputs s
    ∧ reference s' = reference s
    ∧ reg_state s' = reg_state s
    ∧ reg_state_buff s' = reg_state_buff s
    ∧ (valid_mode flag → reg_mode s' = flag)
    ∧ (¬ valid_mode flag → s' = s ∧ l = []).
Proof. apply rgltrSetMode_frame. Qed.

(** X9.  In every reachable state the module is ready and the mode is one
    of [REG_OFF], [REG_TRACK] and [REG_REMOTE_CONTROL]: once set up, every
    cycle runs, and no other value is ever stored as the mode. *)
Theorem reachable_ready_valid_mode (s : State) :
  reachable s → is_ready s = 1 ∧ valid_mode (reg_mode s).
Proof.
  intros Hreach. destruct (reachable_invariant s Hreach) as (? & ? & _).
  by split.
Qed.

(** X10.  In every reachable state the five slots are all in the idle or
    the active queue, so a cycle always gets a slot for its snapshot: reads
    return their slot at once and the producer reclaims the oldest unread
    one. *)
Theorem telemetry_never_starves (s : State) :
  reachable s →
  queued (reg_state_buff s) = REG_BUFF_SIZE ∧ is_Some (logged_slot s).
Proof.
  intros Hreach. destruct (reachable_invariant s Hreach) as (_ & _ & Hq).
  split; [done|]. by apply queued_logged_slot.
Qed.

(** X11.  After [rgltrSetPitchRateFilter(params)], an initialized cycle
    in [REG_TRACK] mode with the pitch controller running runs that
    controller exactly once, on the unfiltered pitch error, with the handle
    that [dfilterCreate] returned for [params]. *)
Theorem pitch_filter_reaches_pitch_pid (env : CycleEnv F) (s : State)
    (p : RateFilterParamsStruct F) :
  is_ready s ≠ 0 →
  reg_mode s = REG_TRACK →
  ctrlIsRunning (pitchPid s) = true →
  ∃ s1 s2 l,
    rgltrSetPitchRateFilter (Some p) s = Done (tt, s1, [])
    ∧ rgltrRunController env s1 = Done (tt, s2, l)
    ∧ List.filter (is_pid_run Pitch) l
      = [CtrlRunPid Pitch (pitch_err (cycle_errors env s))
           (dfilterCreate (fp_order p) (fp_type p) (fp_xcoeffs p)
              (fp_ycoeffs p))].
Proof.
  intros Hready Htrack Hpitch.
  set (s1 := set_filter Pitch
               (dfilterCreate (fp_order p) (fp_type p) (fp_xcoeffs p)
                  (fp_ycoeffs p)) s).
  destruct (rgltrRunController_track env s1 Hready Htrack) as [s2 Hrun].
  eexists s1, s2, _. split; [done|]. split; [exact Hrun|].
  rewrite List.filter_app. unfold track_runs.
  change (cycle_errors env s1) with (cycle_errors env s).
  change (pitchPid s1) with (pitchPid s). change (yawPid s1) with (yawPid s).
  rewrite Hpitch. by destruct (ctrlIsRunning (yawPid s)).
Qed.

(** X13.  With no unread snapshot in the pool, what an initialized cycle
    publishes is what the next [rgltrGetState] returns: a snapshot with the
    cycle's time, reference and pose; the read after that finds nothing and
    returns zeros. *)
Theorem telemetry_round_trip (env : CycleEnv F) (s : State) (i : slot) :
  is_ready s ≠ 0 →
  active_q (reg_state_buff s) = [] →
  logged_slot s = Some i →
  ∃ s1 l dst s2,
    rgltrRunController env s = Done (tt, s1, l)
    ∧ rgltrGetState s1 = Done (dst, s2, [])
    ∧ dst = reg_state s1 !!! i
    ∧ st_time dst = local_ticks env
    ∧ st_ref dst = reference s
    ∧ st_pose dst = att_quat env
    ∧ rgltrGetState s2 = Done (zero_state, s2, []).
Proof.
  intros Hready Hactive Hslot.
  destruct (cycle_pool env s Hready)
    as (u & s1' & l1 & s1 & _ & Hrun & Hstate & Hbuff).
  rewrite Hslot in Hstate, Hbuff.
  assert (active_q (reg_state_buff s1) = [i]) as Hqueue.
  { rewrite Hbuff. revert Hslot Hactive.
    unfold logged_slot, pbuffForceGetIdleOldest, pbuffGetIdle,
      pbuffGetOldestActive.
    destruct (reg_state_buff s) as [idle active]. cbn.
    destruct idle; cbn; intros Hi Ha; subst; [done|].
    by injection Hi as ->. }
  eexists s1, _, _, _. split; [exact Hrun|].
  rewrite !rgltrGetState_run. cbn. rewrite Hqueue. cbn.
  split; [reflexivity|]. split; [reflexivity|].
  rewrite Hstate. unfold slot in *. rewrite vlookup_insert. cbn.
  do 3 (split; [done|]).
  by destruct s1.
Qed.

(** X14.  [rgltrSetup] resets the pool and drops unread telemetry: the
    five slots are idle and a read straight after setup returns zeros.  It
    keeps the stored remote-control values, the pitch and roll rate filters
    and the contents of the slots. *)
Theorem setup_drops_unread_telemetry (ts : F) (s : State) :
  ∃ s',
    rgltrSetup ts s = Done (tt, s', [ServoSetup; McSetup])
    ∧ idle_q (reg_state_buff s') = [0; 1; 2; 3; 4]%fin
    ∧ active_q (reg_state_buff s') = []
    ∧ rgltrGetState s' = Done (zero_state, s', [])
    ∧ rc_outputs s' = rc_outputs s
    ∧ pitchRateFilter s' = pitchRateFilter s
    ∧ rollRateFilter s' = rollRateFilter s
    ∧ reg_state s' = reg_state s.
Proof.
  destruct (rgltrSetup_frame ts s)
    as (s' & Hrun & _ & _ & Hrc & Hp & Hr & Hst & Hidle & Hactive).
  exists s'. do 3 (split; [done|]). split; [|done].
  rewrite rgltrGetState_run, Hactive. by destruct s'.
Qed.

(** X15.  A telemetry read touches the pool only: the controllers, the
    rate filters, the ready flag, the mode, the remote-control values, the
    reference and the contents of the slots are as before, no call is made,
    and as many slots are queued after the read as before. *)
Theorem read_touches_pool_only (s : State) :
  ∃ dst s',
    rgltrGetState s = Done (dst, s', [])
    ∧ same_but_pool s s'
    ∧ queued (reg_state_buff s') = queued (reg_state_buff s).
Proof.
  eexists _, _. split; [apply rgltrGetState_run|].
  split; [by repeat split|]. apply read_queued.
Qed.

(** X12.  In [REG_TRACK] mode, of the values stored by
    [rgltrSetRemoteControlValues] only the thrust reaches the actuators:
    the cycle commands it unchanged, and the steer and elevator commands
    are the controllers' outputs, whatever steer and elevator were stored. *)
Theorem track_uses_override_thrust_only (env : CycleEnv F) (s : State)
    (th st el : F) :
  is_ready s ≠ 0 →
  reg_mode s = REG_TRACK →
  let e := cycle_errors env s in
  ∃ s1 s2,
    rgltrSetRemoteControlValues th st el s = Done (tt, s1, [])
    ∧ rgltrRunController env s1
      = Done (tt, s2,
              track_runs e s
              ++ [McSteer (track_steer e s); McThrust th;
                  ServoSet (track_elevator e s)]).
Proof.
  intros Hready Htrack e.
  destruct (rgltrRunController_track env
              (set_rc_outputs (Output th st el) s) Hready Htrack)
    as [s2 Hrun].
  by eexists _, s2.
Qed.

(** X16.  With a non-null argument, each PID setter and each reference
    setter finishes without a call and changes the controller of its own
    axis only; the PID setters end by setting the saturation bounds to 1
    and -1, whatever the parameters are. *)
Theorem axis_setters_touch_one_controller (p : PidParamsStruct F) (r : F)
    (s : State) :
  (∃ s' pid, rgltrSetYawPid (Some p) s = Done (tt, s', [])
     ∧ same_but_pid Yaw s s'
     ∧ yawPid s' = ctrlSetSaturation pid (Flit 1) (Flit (-1)))
  ∧ (∃ s' pid, rgltrSetPitchPid (Some p) s = Done (tt, s', [])
       ∧ same_but_pid Pitch s s'
       ∧ pitchPid s' = ctrlSetSaturation pid (Flit 1) (Flit (-1)))
  ∧ (∃ s' pid, rgltrSetRollPid (Some p) s = Done (tt, s', [])
       ∧ same_but_pid Roll s s'
       ∧ rollPid s' = ctrlSetSaturation pid (Flit 1) (Flit (-1)))
  ∧ (∃ s', rgltrSetYawRef r s = Done (tt, s', [])
       ∧ same_but_pid Yaw s s' ∧ yawPid s' = ctrlSetRef (yawPid s) r)
  ∧ (∃ s', rgltrSetPitchRef r s = Done (tt, s', [])
       ∧ same_but_pid Pitch s s' ∧ pitchPid s' = ctrlSetRef (pitchPid s) r)
  ∧ (∃ s', rgltrSetRollRef r s = Done (tt, s', [])
       ∧ same_but_pid Roll s s' ∧ rollPid s' = ctrlSetRef (rollPid s) r).
Proof.
  repeat split;
    try (eexists _, _; split; [reflexivity|]);
    try (eexists; split; [reflexivity|]);
    (split; [|reflexivity]); (split; [|by repeat split]);
    by intros [].
Qed.

(** The calls of a cycle do not depend on the roll controller and the roll
    rate filter. *)
Lemma rgltrRunController_with_roll (env : CycleEnv F) (s : State) (p : Pid)
    (f : option Filter) :
  calls_of (rgltrRunController env (with_roll p f s))
    = calls_of (rgltrRunController env s).
Proof.
  destruct (Z.eq_dec (is_ready s) 0) as [Hoff|Hready].
  { by rewrite !rgltrRunController_not_ready. }
  destruct (mode_outputs_total (cycle_errors env s) s)
    as (u & s1 & l1 & Hmode & _).
  erewrite (rgltrRunController_run env s) by done.
  erewrite (rgltrRunController_run env (with_roll p f s));
    last (by apply mode_outputs_with_roll); done.
Qed.

Lemma rgltrRunController_set_roll_pid (env : CycleEnv F) (s : State)
    (p : Pid) :
  calls_of (rgltrRunController env (set_pid Roll p s))
    = calls_of (rgltrRunController env s).
Proof. exact (rgltrRunController_with_roll env s p (rollRateFilter s)). Qed.

Lemma rgltrRunController_set_roll_filter (env : CycleEnv F) (s : State)
    (f : option Filter) :
  calls_of (rgltrRunController env (set_filter Roll f s))
    = calls_of (rgltrRunController env s).
Proof. exact (rgltrRunController_with_roll env s (rollPid s) f). Qed.

(** X17.  Configuring the roll axis changes nothing a cycle does: after
    [rgltrSetRollPid], [rgltrSetRollRateFilter] or [rgltrSetRollRef] the
    cycle makes the same calls with the same values as before. *)
Theorem roll_configuration_has_no_effect (env : CycleEnv F) (s : State)
    (p : PidParamsStruct F) (fp : RateFilterParamsStruct F) (r : F) :
  (∃ s1, rgltrSetRollPid (Some p) s = Done (tt, s1, [])
     ∧ calls_of (rgltrRunController env s1)
       = calls_of (rgltrRunController env s))
  ∧ (∃ s1, rgltrSetRollRateFilter (Some fp) s = Done (tt, s1, [])
       ∧ calls_of (rgltrRunController env s1)
         = calls_of (rgltrRunController env s))
  ∧ (∃ s1, rgltrSetRollRef r s = Done (tt, s1, [])
       ∧ calls_of (rgltrRunController env s1)
         = calls_of (rgltrRunController env s)).
Proof.
  repeat split; (eexists; split; [reflexivity|]); cbv beta.
  - by rewrite !rgltrRunController_set_roll_pid.
  - apply rgltrRunController_set_roll_filter.
  - apply rgltrRunController_set_roll_pid.
Qed.

End Properties.

(** ** Runs on the reference platform *)

Section Runs.

#[local] Instance sim_contract : ControllerContract Sim.controller.
Proof. by split. Qed.

(** C4 on a configured module in [REG_OFF] mode, with remote-control values
    (0.5, -0.2, 0.1) stored and the vehicle rolled: the commands are zero. *)
Lemma off_mode_commands_zero_run :
  is_ready Sim.configured ≠ 0
  ∧ reg_mode Sim.configured = REG_OFF
  ∧ ∃ s', rgltrRunController Sim.rolled_env Sim.configured
          = Done (tt, s', [McSteer 0%float; McThrust 0%float;
                           ServoSet 0%float]).
Proof.
  assert (is_ready Sim.configured ≠ 0) as Hready by by vm_compute.
  split; [exact Hready|]. split; [reflexivity|].
  exact (proj2 (off_mode_commands_zero Sim.rolled_env Sim.configured Hready)
           eq_refl).
Defined.

(** C5 on the module in [REG_REMOTE_CONTROL] mode: the scenario of the
    specification, thrust 0.5, steer -0.2, elevator 0.1. *)
Lemma remote_mode_commands_override_run :
  is_ready Sim.remote ≠ 0
  ∧ reg_mode Sim.remote = REG_REMOTE_CONTROL
  ∧ ∃ s1 s2,
      rgltrSetRemoteControlValues 0.5%float (-0.2)%float 0.1%float Sim.remote
        = Done (tt, s1, [])
      ∧ rgltrRunController Sim.rolled_env s1
        = Done (tt, s2, [McSteer (-0.2)%float; McThrust 0.5%float;
                         ServoSet 0.1%float]).
Proof.
  assert (is_ready Sim.remote ≠ 0) as Hready by by vm_compute.
  split; [exact Hready|]. split; [reflexivity|].
  exact (remote_mode_commands_override Sim.rolled_env Sim.remote
           0.5%float (-0.2)%float 0.1%float Hready eq_refl).
Defined.

(** C6 on the tracking module with the vehicle pitched: the snapshot of the
    cycle carries the pitch error as the yaw rate filter returns it, one
    sixth of the extracted -1.2147. *)
Lemma pitch_error_through_yaw_filter_run :
  is_ready Sim.tracking ≠ 0
  ∧ yawRateFilter Sim.tracking = Some Sim.default_filter
  ∧ pitch_err (cycle_errors Sim.pitched_env Sim.tracking)
    = (-1.2147366612485493)%float
  ∧ ∃ s' l,
      rgltrRunController Sim.pitched_env Sim.tracking = Done (tt, s', l)
      ∧ qy (st_error (reg_state s' !!! 0%fin)) = (-0.20245611020809154)%float.
Proof.
  assert (is_ready Sim.tracking ≠ 0) as Hready by by vm_compute.
  assert (yawRateFilter Sim.tracking = Some Sim.default_filter) as Hfilter
    by by vm_compute.
  split; [exact Hready|]. split; [exact Hfilter|].
  split; [by vm_compute|].
  destruct (pitch_error_through_yaw_filter Sim.pitched_env Sim.tracking
              Sim.default_filter Hready Hfilter)
    as (u & s1 & l1 & f1 & s' & _ & _ & Hf1 & Hrun & _ & Hslot).
  exists s', (l1 ++ [McSteer (steer u); McThrust (thrust u);
                     ServoSet (elevator u)]).
  split; [exact Hrun|].
  etrans; [exact (f_equal qy (Hslot 0%fin eq_refl))|].
  rewrite Hf1. by vm_compute.
Defined.

(** C3 on the module after setup, [REG_TRACK] and then
    [REG_REMOTE_CONTROL]: the state is reachable, its mode is
    [REG_REMOTE_CONTROL], and the three controllers, started in between,
    are stopped. *)
Lemma remote_mode_controllers_stopped_run :
  reachable Sim.handed_over
  ∧ reg_mode Sim.handed_over = REG_REMOTE_CONTROL
  ∧ all_stopped Sim.handed_over.
Proof.
  assert (reachable Sim.handed_over) as Hreach.
  { eapply (reach_mode REG_REMOTE_CONTROL); [|reflexivity].
    eapply (reach_mode REG_TRACK); [|reflexivity].
    by eapply (reach_setup 0.01%float Sim.power_on). }
  split; [exact Hreach|]. split; [reflexivity|].
  exact (proj2 (proj2 (proj2 (proj2
           (remote_mode_controllers_stopped sim_contract))))
           Sim.handed_over Hreach eq_refl).
Defined.

(** C2 on the level reference and the pose half a turn away: [qerr.w] is
    0, the half angle is a quarter turn, 16384 binary units, and its double
    wraps to -32768: the angle is minus pi and the roll error plus pi. *)
Lemma extraction_wraps_full_angle_run :
  Feqb (qw (quatMult Sim.identity (quatConj Sim.half_turn))) (Flit 1) = false
  ∧ bams16Acos (qw (quatMult Sim.identity (quatConj Sim.half_turn))) = 16384
  ∧ extract_error 7%float (error_quat Sim.identity Sim.half_turn)
    = Errors (Sim.to_rad (-32768)) (-0)%float (-0)%float
        (- Sim.to_rad (-32768))%float.
Proof.
  split; [by vm_compute|]. split; [by vm_compute|].
  etrans.
  - refine (proj1 (proj2 (extraction_wraps_full_angle Sim.acos_rad
                            Sim.sin_rad Sim.identity Sim.half_turn
                            _ _ _ _ _)) 7%float); by vm_compute.
  - by vm_compute.
Defined.

(** C2 as it is worded fails there.  With the library exact at [qerr.w =
    0] against its own values read in radians, the specification's error
    terms have the angle plus pi and the roll error minus pi; the code's
    have the opposite signs. *)
Lemma extraction_differs_past_quarter_turn :
  let w := qw (quatMult Sim.identity (quatConj Sim.half_turn)) in
  Feqb w (Flit 1) = false
  ∧ bams16ToFloatRad (bams16Acos w) = Sim.acos_rad w
  ∧ bams16Sin (bams16Acos w) = Sim.sin_rad (Sim.acos_rad w)
  ∧ err_a (extractError_spec Sim.acos_rad Sim.sin_rad Sim.identity
             Sim.half_turn) = Sim.to_rad 32768
  ∧ err_a (extract_error 7%float (error_quat Sim.identity Sim.half_turn))
    = Sim.to_rad (-32768)
  ∧ extract_error 7%float (error_quat Sim.identity Sim.half_turn)
    ≠ extractError_spec Sim.acos_rad Sim.sin_rad Sim.identity Sim.half_turn.
Proof.
  cbv zeta. do 5 (split; [by vm_compute|]).
  intros Heq. apply (f_equal err_a) in Heq. vm_compute in Heq.
  discriminate Heq.
Qed.

(** C10 on a build in which lines 175-177 assign nothing: after setup of a
    freshly started module no filter is attached, and the first cycle, with
    the vehicle pitched, records the pitch error unfiltered. *)
Lemma setup_yaw_filter_not_determined_run :
  ∃ s',
    rgltrSetup (YS := Sim.yaw_unassigned) 0.01%float Sim.power_on
      = Done (tt, s', [ServoSetup; McSetup])
    ∧ yawRateFilter s' = None
    ∧ ∃ s2 l,
        rgltrRunController Sim.pitched_env s' = Done (tt, s2, l)
        ∧ qy (st_error (reg_state s2 !!! 0%fin))
          = (-1.2147366612485493)%float.
Proof.
  destruct (setup_yaw_filter_not_determined (YS := Sim.yaw_unassigned)
              0.01%float Sim.power_on)
    as (s' & Hrun & _ & _ & Href & Hfilter & Hcycle).
  exists s'. split; [exact Hrun|].
  assert (yawRateFilter s' = None) as Hnone by exact Hfilter.
  split; [exact Hnone|].
  destruct (Hcycle Sim.pitched_env Hnone) as (s2 & Hrun2 & _ & Herr).
  eexists s2, _. split; [exact Hrun2|].
  etrans; [exact Herr|].
  unfold cycle_errors. rewrite Href. by vm_compute.
Defined.

(** C7 on the tracking module, whose roll controller is running: the cycle
    runs the yaw and the pitch controller and makes no call on the roll
    controller. *)
Lemma roll_controller_never_run_run :
  ctrlIsRunning (rollPid Sim.tracking) = true
  ∧ ∃ s' l,
      rgltrRunController Sim.pitched_env Sim.tracking = Done (tt, s', l)
      ∧ List.filter (is_pid_run Roll) l = []
      ∧ List.filter (is_pid_run Pitch) l
        = [CtrlRunPid Pitch (-1.2147366612485493)%float None].
Proof.
  split; [reflexivity|].
  destruct (proj1 (roll_controller_never_run Sim.pitched_env Sim.tracking))
    as (s' & l & Hrun & Hroll & _).
  exists s', l. split; [exact Hrun|]. split; [exact Hroll|].
  injection Hrun as _ <-. by vm_compute.
Defined.

(** C1 at its failing input.  Freshly set up, level, with [a] holding 7 on
    entry: the error quaternion has [w == 1.0], the three axis errors are
    zero, and the snapshot records 7 as the angle. *)
Theorem degenerate_angle_not_zeroed :
  Feqb (qw (error_quat (reference Sim.after_setup)
              (att_quat Sim.level_env))) (Flit 1) = true
  ∧ cycle_errors Sim.level_env Sim.after_setup
    = Errors 7%float 0%float 0%float 0%float
  ∧ st_error <$>
      ((λ s', reg_state s' !!! 0%fin) <$>
         final_state (rgltrRunController Sim.level_env Sim.after_setup))
    = Some (Quat 7 0 0 0)%float.
Proof. by vm_compute. Qed.

(** X1 on the module before setup: the cycle does nothing. *)
Lemma cycle_before_setup_is_noop_run :
  is_ready Sim.power_on = 0
  ∧ rgltrRunController Sim.rolled_env Sim.power_on
    = Done (tt, Sim.power_on, []).
Proof.
  split; [reflexivity|].
  exact (proj1 (cycle_before_setup_is_noop Sim.rolled_env Sim.power_on
                  eq_refl)).
Defined.

(** X2 on the tracking module with the vehicle pitched: the yaw controller
    runs on a zero error with the default filter, the pitch controller on
    the extracted -1.2147 with no filter, and the elevator saturates at 1
    while the thrust is the stored 0.5. *)
Lemma track_mode_commands_run :
  is_ready Sim.tracking ≠ 0
  ∧ reg_mode Sim.tracking = REG_TRACK
  ∧ ∃ s',
      rgltrRunController Sim.pitched_env Sim.tracking
        = Done (tt, s',
                [CtrlRunPid Yaw 0%float (Some Sim.default_filter);
                 CtrlRunPid Pitch (-1.2147366612485493)%float None;
                 McSteer 0%float; McThrust 0.5%float; ServoSet 1%float]).
Proof.
  assert (is_ready Sim.tracking ≠ 0) as Hready by by vm_compute.
  split; [exact Hready|]. split; [reflexivity|].
  destruct (track_mode_commands Sim.pitched_env Sim.tracking Hready eq_refl)
    as [s' Hrun].
  exists s'. etrans; [exact Hrun|]. by vm_compute.
Defined.

(** X3 on the module in remote-control mode. *)
Lemma bypassed_controllers_untouched_run :
  reg_mode Sim.remote ≠ REG_TRACK
  ∧ ∃ s' l,
      rgltrRunController Sim.rolled_env Sim.remote = Done (tt, s', l)
      ∧ List.filter is_controller_call l = []
      ∧ yawPid s' = yawPid Sim.remote
      ∧ pitchPid s' = pitchPid Sim.remote.
Proof.
  assert (reg_mode Sim.remote ≠ REG_TRACK) as Hmode by by vm_compute.
  split; [exact Hmode|].
  destruct (bypassed_controllers_untouched Sim.rolled_env Sim.remote Hmode)
    as (s' & l & Hrun & Hcalls & Hyaw & Hpitch & _).
  by exists s', l.
Defined.

(** X5 on the tracking module with the vehicle pitched: slot 0 receives
    the snapshot. *)
Lemma snapshot_records_commands_run :
  is_ready Sim.tracking ≠ 0
  ∧ logged_slot Sim.tracking = Some 0%fin
  ∧ ∃ s' l u,
      rgltrRunController Sim.pitched_env Sim.tracking = Done (tt, s', l)
      ∧ st_time (reg_state s' !!! 0%fin) = 19
      ∧ st_u (reg_state s' !!! 0%fin) = [# thrust u; steer u; elevator u]
      ∧ last (active_q (reg_state_buff s')) = Some 0%fin.
Proof.
  assert (is_ready Sim.tracking ≠ 0) as Hready by by vm_compute.
  split; [exact Hready|]. split; [reflexivity|].
  destruct (snapshot_records_commands Sim.pitched_env Sim.tracking 0%fin
              Hready eq_refl)
    as (s' & l & u & Hrun & _ & Htime & _ & _ & Hu & _ & Hlast).
  by exists s', l, u.
Defined.

(** X6 on the configured module with every slot checked out. *)
Lemma cycle_without_slot_run :
  is_ready Sim.starved ≠ 0
  ∧ logged_slot Sim.starved = None
  ∧ ∃ s' l u,
      rgltrRunController Sim.rolled_env Sim.starved = Done (tt, s', l)
      ∧ List.filter is_actuator_command l
        = [McSteer (steer u); McThrust (thrust u); ServoSet (elevator u)]
      ∧ reg_state s' = reg_state Sim.starved.
Proof.
  assert (is_ready Sim.starved ≠ 0) as Hready by by vm_compute.
  split; [exact Hready|]. split; [reflexivity|].
  destruct (cycle_without_slot Sim.rolled_env Sim.starved Hready eq_refl)
    as (s' & l & u & Hrun & Hcmds & Hstate & _).
  by exists s', l, u.
Defined.

(** The module after setup, [REG_TRACK] and [REG_REMOTE_CONTROL] is in a
    reachable state. *)
Lemma handed_over_reachable : reachable Sim.handed_over.
Proof.
  eapply (reach_mode REG_REMOTE_CONTROL); [|reflexivity].
  eapply (reach_mode REG_TRACK); [|reflexivity].
  by eapply (reach_setup 0.01%float Sim.power_on).
Qed.

(** X9 on that state. *)
Lemma reachable_ready_valid_mode_run :
  reachable Sim.handed_over
  ∧ is_ready Sim.handed_over = 1
  ∧ valid_mode (reg_mode Sim.handed_over).
Proof.
  split; [exact handed_over_reachable|].
  exact (reachable_ready_valid_mode Sim.handed_over handed_over_reachable).
Defined.

(** X10 on that state. *)
Lemma telemetry_never_starves_run :
  reachable Sim.handed_over
  ∧ queued (reg_state_buff Sim.handed_over) = REG_BUFF_SIZE
  ∧ is_Some (logged_slot Sim.handed_over).
Proof.
  split; [exact handed_over_reachable|].
  exact (telemetry_never_starves Sim.handed_over handed_over_reachable).
Defined.

(** X11 on the tracking module: a first-order filter is attached to the
    pitch axis and reaches the pitch controller. *)
Lemma pitch_filter_reaches_pitch_pid_run :
  is_ready Sim.tracking ≠ 0
  ∧ reg_mode Sim.tracking = REG_TRACK
  ∧ ctrlIsRunning (pitchPid Sim.tracking) = true
  ∧ ∃ s1 s2 l,
      rgltrSetPitchRateFilter (Some Sim.smoothing) Sim.tracking
        = Done (tt, s1, [])
      ∧ rgltrRunController Sim.pitched_env s1 = Done (tt, s2, l)
      ∧ List.filter (is_pid_run Pitch) l
        = [CtrlRunPid Pitch (-1.2147366612485493)%float
             (Some (Sim.Filter 1 0 [0.5; 0.5]%float [0; 0]%float
                      [0%float] [0%float]))].
Proof.
  assert (is_ready Sim.tracking ≠ 0) as Hready by by vm_compute.
  assert (ctrlIsRunning (pitchPid Sim.tracking) = true) as Hpitch
    by reflexivity.
  split; [exact Hready|]. split; [reflexivity|]. split; [exact Hpitch|].
  destruct (pitch_filter_reaches_pitch_pid Sim.pitched_env Sim.tracking
              Sim.smoothing Hready eq_refl Hpitch)
    as (s1 & s2 & l & Hset & Hrun & Hcalls).
  exists s1, s2, l. split; [exact Hset|]. split; [exact Hrun|].
  etrans; [exact Hcalls|]. by vm_compute.
Defined.

(** X13 on a freshly set-up module, level: the cycle publishes in slot 0
    and the read returns that snapshot, taken at tick 17. *)
Lemma telemetry_round_trip_run :
  is_ready Sim.after_setup ≠ 0
  ∧ active_q (reg_state_buff Sim.after_setup) = []
  ∧ logged_slot Sim.after_setup = Some 0%fin
  ∧ ∃ s1 l dst s2,
      rgltrRunController Sim.level_env Sim.after_setup = Done (tt, s1, l)
      ∧ rgltrGetState s1 = Done (dst, s2, [])
      ∧ st_time dst = 17
      ∧ st_pose dst = Sim.identity
      ∧ rgltrGetState s2 = Done (zero_state, s2, []).
Proof.
  assert (is_ready Sim.after_setup ≠ 0) as Hready by by vm_compute.
  split; [exact Hready|]. split; [reflexivity|]. split; [reflexivity|].
  destruct (telemetry_round_trip Sim.level_env Sim.after_setup 0%fin
              Hready eq_refl eq_refl)
    as (s1 & l & dst & s2 & Hrun & Hread & _ & Htime & _ & Hpose & Hagain).
  by exists s1, l, dst, s2.
Defined.

(** X12 on the tracking module: thrust 0.3 is stored with steer 0.9 and
    elevator -0.9, and only the thrust shows in the commands. *)
Lemma track_uses_override_thrust_only_run :
  is_ready Sim.tracking ≠ 0
  ∧ reg_mode Sim.tracking = REG_TRACK
  ∧ ∃ s1,
      rgltrSetRemoteControlValues 0.3%float 0.9%float (-0.9)%float
        Sim.tracking = Done (tt, s1, [])
      ∧ List.filter is_actuator_command
          <$> calls_of (rgltrRunController Sim.pitched_env s1)
        = Some [McSteer 0%float; McThrust 0.3%float; ServoSet 1%float].
Proof.
  assert (is_ready Sim.tracking ≠ 0) as Hready by by vm_compute.
  split; [exact Hready|]. split; [reflexivity|].
  destruct (track_uses_override_thrust_only Sim.pitched_env Sim.tracking
              0.3%float 0.9%float (-0.9)%float Hready eq_refl)
    as (s1 & s2 & Hset & Hrun).
  exists s1. split; [exact Hset|].
  rewrite Hrun. by vm_compute.
Defined.

End Runs.
